(** * ribbon-engine: the layout and compositing code of [shirtmaker.py]

    A shallow embedding of [arrangeRibbons], [placeRibbonGrid] and
    [makeNametape], together with the small part of Python and of the
    Pillow imaging library these three functions rely on, and the
    properties of the layout arithmetic and of the compositing contract. *)

From Stdlib Require Import ZArith QArith Lia Bool.
From stdpp Require Import base list strings.

Local Open Scope Z_scope.

(** ** Python values and control *)

Module Py.

(** The exceptions that can reach a caller of [shirtmaker.py]; of an
    exception that is no [ValueError] only the class is kept. *)
Inductive Exn : Type :=
| ValueError (msg : string)
| OverflowError
| MemoryError
| UnicodeEncodeError.

Inductive result (A : Type) : Type :=
| Ok (a : A)
| Raise (e : Exn).
Arguments Ok {A} a.
Arguments Raise {A} e.

Definition bind {A B} (r : result A) (k : A -> result B) : result B :=
  match r with
  | Ok a => k a
  | Raise e => Raise e
  end.

Definition succeeded {A} (r : result A) : bool :=
  match r with Ok _ => true | Raise _ => false end.

(** [len(xs)] *)
Definition len {A} (xs : list A) : Z := Z.of_nat (length xs).

(** The position a slice bound denotes in a sequence of length [n]:
    negative bounds count from the end, and everything is clamped to
    [0..n]. *)
Definition slice_bound (n i : Z) : Z :=
  if i <? 0 then Z.max 0 (n + i) else Z.min i n.

(** [xs[lo:hi]] *)
Definition slice {A} (xs : list A) (lo hi : Z) : list A :=
  let lo' := slice_bound (len xs) lo in
  let hi' := slice_bound (len xs) hi in
  take (Z.to_nat (hi' - lo')) (drop (Z.to_nat lo') xs).

(** [xs[lo:]] *)
Definition slice_from {A} (xs : list A) (lo : Z) : list A :=
  drop (Z.to_nat (slice_bound (len xs) lo)) xs.

(** [enumerate(xs)], counting from [i]. *)
Fixpoint enumerate_from {A} (i : Z) (xs : list A) : list (Z * A) :=
  match xs with
  | [] => []
  | x :: xs' => (i, x) :: enumerate_from (i + 1) xs'
  end.

Definition enumerate {A} (xs : list A) : list (Z * A) := enumerate_from 0 xs.

(** A [for] loop whose body updates a value and may raise. *)
Fixpoint for_each {A S} (body : S -> A -> result S) (xs : list A) (s : S)
  : result S :=
  match xs with
  | [] => Ok s
  | x :: xs' => bind (body s x) (for_each body xs')
  end.

(** [int(x)] for a float [x]: truncation towards zero.  Floats are
    modelled by exact rationals: the only float the program computes is
    the origin of a tile, a multiple of one half no larger than the width
    of an image that was already allocated, and binary64 arithmetic is
    exact on those. *)
Definition int_of_float (x : Q) : Z := Z.quot (Qnum x) (Z.pos (Qden x)).

End Py.

Export Py.

Declare Scope py_scope.
Delimit Scope py_scope with py.
Notation "'let*' x := r 'in' k" := (Py.bind r (fun x => k))
  (at level 10, x name, r at level 100, k at level 200) : py_scope.

(** ** The part of Pillow the program uses

    Images are values here; which object an image is, and what happens
    when the same object is passed twice, is the business of the store
    further down. *)

Module PIL.

Inductive Mode : Type := L | LA | RGB | RGBA.

Definition mode_eqb (a b : Mode) : bool :=
  match a, b with
  | L, L | LA, LA | RGB, RGB | RGBA, RGBA => true
  | _, _ => false
  end.

(** Four bands; a mode with fewer bands leaves the rest unused. *)
Definition Pixel : Type := (Z * Z * Z * Z)%type.

(** The range of a C [int].  Pillow keeps the size of an image in two of
    them, and takes the size of a new image and the box of a paste through
    them. *)
Definition INT_MAX : Z := 2147483647.
Definition INT_MIN : Z := -2147483648.

Definition is_int (z : Z) : bool := (INT_MIN <=? z) && (z <=? INT_MAX).

(** The widest image Pillow allocates: [INT_MAX / 4 - 1] pixels, so that
    a line of four bytes per pixel still has a C [int] for its length. *)
Definition MAX_XSIZE : Z := 536870910.

Record Image : Type := mkImage {
  mode : Mode;
  stored_size : Z * Z;
  getpixel : Z -> Z -> Pixel
}.

(** An extent as a C [int] that is not negative can hold it. *)
Definition extent (z : Z) : Z := Z.max 0 (Z.min z INT_MAX).

(** [im.size]: the two stored extents.  Every image has a width and a
    height between 0 and [INT_MAX]. *)
Definition size (im : Image) : Z * Z :=
  (extent (fst (stored_size im)), extent (snd (stored_size im))).

Definition width (im : Image) : Z := fst (size im).
Definition height (im : Image) : Z := snd (size im).

Definition with_pixels (im : Image) (px : Z -> Z -> Pixel) : Image :=
  mkImage (mode im) (stored_size im) px.

(** [Image.new(mode, size, color)]: a negative extent is refused, one
    beyond the C [int] range cannot be passed on, and a line too long to
    address is not allocated.  Memory that actually runs out below these
    limits is outside the model. *)
Definition new (m : Mode) (sz : Z * Z) (color : Pixel) : result Image :=
  if (fst sz <? 0) || (snd sz <? 0)
  then Raise (ValueError "Width and height must be >= 0")
  else if negb (is_int (fst sz)) || negb (is_int (snd sz))
  then Raise OverflowError
  else if MAX_XSIZE <? fst sz
  then Raise MemoryError
  else Ok (mkImage m sz (fun _ _ => color)).

(** The luma transform of a conversion to greyscale. *)
Definition luma (r g b : Z) : Z :=
  Z.shiftr (r * 19595 + g * 38470 + b * 7471 + 32768) 16.

Definition pixel_to_RGBA (m : Mode) (p : Pixel) : Pixel :=
  let '(a, b, c, d) := p in
  match m with
  | L => (a, a, a, 255)
  | LA => (a, a, a, b)
  | RGB => (a, b, c, 255)
  | RGBA => (a, b, c, d)
  end.

Definition pixel_of_RGBA (m : Mode) (p : Pixel) : Pixel :=
  let '(r, g, b, a) := p in
  match m with
  | L => (luma r g b, 0, 0, 0)
  | LA => (luma r g b, a, 0, 0)
  | RGB => (r, g, b, 255)
  | RGBA => (r, g, b, a)
  end.

(** [im.convert(mode)].  As a value, the copy of an image that already
    has the requested mode is that image; that the copy is a new object is
    said by [Obj.convert]. *)
Definition convert (m : Mode) (im : Image) : Image :=
  if mode_eqb (mode im) m then im
  else mkImage m (stored_size im)
         (fun x y => pixel_of_RGBA m (pixel_to_RGBA (mode im) (getpixel im x y))).

(** One [memcpy] of the paste loop: [n] pixels of row [ysrc] of [src],
    from column [sx] on, land in row [ydst] of [out] from column [dx]
    on. *)
Definition copy_row (out src : Image) (ydst ysrc dx sx n : Z) : Image :=
  with_pixels out (fun x y =>
    if (y =? ydst) && (dx <=? x) && (x <? dx + n)
    then getpixel src (x - dx + sx) ysrc
    else getpixel out x y).

(** The rows are copied one after the other, top to bottom.  When the
    pasted image is the destination itself ([same]), a row is read from
    the image as the rows before it left it. *)
Fixpoint paste_rows (rows : nat) (y : Z) (same : bool) (out im : Image)
    (dx dy sx sy xsize : Z) : Image :=
  match rows with
  | O => out
  | S rows' =>
      let src := if same then out else im in
      paste_rows rows' (y + 1) same
        (copy_row out src (y + dy) (y + sy) dx sx xsize) im dx dy sx sy xsize
  end.

(** A box whose four edges are C [int]s. *)
Definition int_box (box : Z * Z * Z * Z) : bool :=
  let '(x0, y0, x1, y1) := box in
  is_int x0 && is_int y0 && is_int x1 && is_int y1.

(** The core [paste] without a mask: the four edges of the box are taken
    as C [int]s; the box must have the size of the pasted image; what
    falls outside the destination is clipped. *)
Definition paste_core (same : bool) (out im : Image) (box : Z * Z * Z * Z)
  : result Image :=
  let '(dx0, dy0, dx1, dy1) := box in
  let xsize := dx1 - dx0 in
  let ysize := dy1 - dy0 in
  if negb (int_box box)
  then Raise OverflowError
  else if negb (xsize =? width im) || negb (ysize =? height im)
  then Raise (ValueError "images do not match")
  else
    let sx0 := if dx0 <? 0 then - dx0 else 0 in
    let xsize := if dx0 <? 0 then xsize + dx0 else xsize in
    let dx0 := if dx0 <? 0 then 0 else dx0 in
    let xsize := if width out <? dx0 + xsize then width out - dx0 else xsize in
    let sy0 := if dy0 <? 0 then - dy0 else 0 in
    let ysize := if dy0 <? 0 then ysize + dy0 else ysize in
    let dy0 := if dy0 <? 0 then 0 else dy0 in
    let ysize := if height out <? dy0 + ysize then height out - dy0 else ysize in
    if (xsize <=? 0) || (ysize <=? 0) then Ok out
    else Ok (paste_rows (Z.to_nat ysize) 0 same out im dx0 dy0 sx0 sy0 xsize).

(** [self.paste(im, box)] with a 4-tuple box and no mask.  An image of
    another mode is converted first, except for the pairs Pillow pastes
    as they are. *)
Definition paste (same : bool) (self im : Image) (box : Z * Z * Z * Z)
  : result Image :=
  if mode_eqb (mode self) (mode im) then paste_core same self im box
  else if mode_eqb (mode self) RGB
            && (mode_eqb (mode im) LA || mode_eqb (mode im) RGBA)
  then paste_core false self im box
  else paste_core false self (convert (mode self) im) box.

(** The pixels [draw.rectangle([x0, y0, x1, y1], outline=...)] paints:
    the one-pixel frame of the rectangle, both corners included. *)
Definition on_outline (box : Z * Z * Z * Z) (x y : Z) : bool :=
  let '(x0, y0, x1, y1) := box in
  (x0 <=? x) && (x <=? x1) && (y0 <=? y) && (y <=? y1)
  && ((x =? x0) || (x =? x1) || (y =? y0) || (y =? y1)).

Definition in_image (im : Image) (x y : Z) : bool :=
  (0 <=? x) && (x <? width im) && (0 <=? y) && (y <? height im).

(** [ImageDraw.Draw(im).rectangle(box, outline=color)] on an image drawn
    in its own mode. *)
Definition rectangle (im : Image) (box : Z * Z * Z * Z) (outline : Pixel)
  : result Image :=
  let '(x0, y0, x1, y1) := box in
  if x1 <? x0 then Raise (ValueError "x1 must be greater than or equal to x0")
  else if y1 <? y0 then Raise (ValueError "y1 must be greater than or equal to y0")
  else Ok (with_pixels im (fun x y =>
             if on_outline box x y then outline else getpixel im x y)).

(** A font: how long it measures a line of text, unless it cannot (a
    bitmap font raises on a character it cannot encode), and which pixels
    of the text it covers, relative to the text origin.  A text is the
    sequence of its UTF-8 bytes. *)
Record ImageFont : Type := mkFont {
  getlength : string -> result Q;
  getmask : string -> Z -> Z -> bool
}.

(** [ImageDraw.Draw(im, mode)]: a drawing mode other than the image's
    own is accepted only as RGBA over an RGB image, and then the context
    is a blending one. *)
Definition draw_blend (im_mode : Mode) (draw_mode : option Mode) : result bool :=
  match draw_mode with
  | None => Ok false
  | Some m =>
      if mode_eqb m im_mode then Ok false
      else if mode_eqb m RGBA && mode_eqb im_mode RGB then Ok true
      else Raise (ValueError "mode mismatch")
  end.

Definition multiline (text : string) : bool :=
  existsb (fun c => Ascii.eqb c (Ascii.ascii_of_nat 10)) (String.list_ascii_of_string text).

(** The colour a covered pixel takes: the ink as it is.  Whether the
    context blends matters to lines and shapes, not to the bitmap of a
    text. *)
Definition ink_pixel (blend : bool) (ink old : Pixel) : Pixel := ink.

(** One line of text drawn with its origin at [xy]. *)
Definition draw_text (blend : bool) (im : Image) (xy : Z * Z) (text : string)
    (fill : Pixel) (font : ImageFont) : Image :=
  with_pixels im (fun x y =>
    if getmask font text (x - fst xy) (y - snd xy)
    then ink_pixel blend fill (getpixel im x y)
    else getpixel im x y).

End PIL.

Export PIL.

(** ** The store of image objects

    Python passes images by reference and [paste] and the drawing calls
    mutate them: an image object is a location of the store, and a function
    that hands back its argument hands back the same location. *)

Module Store.

Definition loc : Type := nat.

Record World : Type := mkWorld {
  heap : list Image;
  stdout : list string
}.

Definition M (A : Type) : Type := World -> result A * World.

Definition ret {A} (a : A) : M A := fun w => (Ok a, w).

Definition mbind {A B} (c : M A) (k : A -> M B) : M B :=
  fun w =>
    match c w with
    | (Ok a, w') => k a w'
    | (Raise e, w') => (Raise e, w')
    end.

Definition lift {A} (r : result A) : M A := fun w => (r, w).

(** [print(msg)] *)
Definition print (msg : string) : M unit :=
  fun w => (Ok tt, mkWorld (heap w) (stdout w ++ [msg])).

(** Reading an object.  A reference always points to an object; a
    location outside the store has no Python counterpart. *)
Definition get (l : loc) : M Image :=
  fun w =>
    match heap w !! l with
    | Some im => (Ok im, w)
    | None => (Raise (ValueError "no such object"), w)
    end.

Definition put (l : loc) (im : Image) : M unit :=
  fun w => (Ok tt, mkWorld (<[l := im]> (heap w)) (stdout w)).

(** A newly created object. *)
Definition alloc (im : Image) : M loc :=
  fun w => (Ok (length (heap w)), mkWorld (heap w ++ [im]) (stdout w)).

End Store.

Export Store.

Declare Scope store_scope.
Delimit Scope store_scope with store.
Notation "'do' x <- c ; k" := (Store.mbind c (fun x => k))
  (at level 10, x name, c at level 100, k at level 200) : store_scope.

(** Pillow's operations on objects of the store. *)

Module Obj.

Local Open Scope store_scope.

(** [im.convert(mode)] returns a new object. *)
Definition convert (l : loc) (m : Mode) : M loc :=
  do im <- get l; alloc (PIL.convert m im).

(** [self.paste(im, box)] mutates [self]. *)
Definition paste (self im : loc) (box : Z * Z * Z * Z) : M unit :=
  do out <- get self;
  do src <- get im;
  do out' <- lift (PIL.paste (Nat.eqb self im) out src box);
  put self out'.

(** A drawing context: the image it draws into and whether it blends. *)
Record ImageDraw : Type := mkDraw {
  draw_image : loc;
  draw_blends : bool
}.

(** [ImageDraw.Draw(im, mode)] *)
Definition Draw (l : loc) (m : option Mode) : M ImageDraw :=
  do im <- get l;
  do blend <- lift (draw_blend (mode im) m);
  ret (mkDraw l blend).

(** [draw.textlength(text, font)]: one line only, and what the font
    raises is passed on. *)
Definition textlength (d : ImageDraw) (text : string) (font : ImageFont) : M Q :=
  if multiline text
  then lift (Raise (ValueError "can't measure length of multiline text"))
  else lift (getlength font text).

(** [draw.text(xy, text, fill, font)] for one line of text. *)
Definition text (d : ImageDraw) (xy : Z * Z) (txt : string) (fill : Pixel)
    (font : ImageFont) : M unit :=
  do im <- get (draw_image d);
  put (draw_image d) (draw_text (draw_blends d) im xy txt fill font).

End Obj.

(** ** [shirtmaker.py] *)

Module Shirtmaker.

(** *** [arrangeRibbons]

    The function reads its tiles, never writes to them, prints nothing
    and returns an image it has created itself: it is modelled on image
    values.  [None] stands for a partition loop that has not finished
    within [fuel] iterations. *)

(** The [while len(ribbons) > 0] loop, lines 40-43. *)
Fixpoint split_rows (fuel : nat) (ribbons : list Image) (ribbonsPerRow : Z)
    (rows : list (list Image)) : option (list (list Image)) :=
  match fuel with
  | O => None
  | S fuel' =>
      if 0 <? len ribbons then
        let m := Z.min (len ribbons) ribbonsPerRow in
        split_rows fuel' (slice_from ribbons m) ribbonsPerRow
          (rows ++ [slice ribbons 0 m])
      else Some rows
  end.

(** Line 50. *)
Definition ribbonOriginX (ribbonDimensions : Z * Z) (ribbonsPerRow : Z)
    (rowLength ribbonIndex : Z) : Z :=
  int_of_float
    (inject_Z (fst ribbonDimensions + 1) / inject_Z 2
       * inject_Z (ribbonsPerRow - rowLength)
     + inject_Z ((fst ribbonDimensions + 1) * ribbonIndex)
     + inject_Z 1)%Q.

(** Line 51. *)
Definition ribbonOriginY (ribbonDimensions : Z * Z) (rowAmount rowIndex : Z) : Z :=
  rowAmount * (snd ribbonDimensions + 1)
  - (rowAmount - rowIndex) * (snd ribbonDimensions + 1) + 1.

(** The rectangle of line 60, as [(x0, y0, x1, y1)], both corners
    included. *)
Definition border_box (ribbonDimensions : Z * Z) (ox oy : Z) : Z * Z * Z * Z :=
  let borderOriginX := ox - 1 in
  let borderOriginY := oy - 1 in
  let borderMaxX := borderOriginX + fst ribbonDimensions + 1 in
  let borderMaxY := borderOriginY + snd ribbonDimensions + 1 in
  (borderOriginX, borderOriginY, borderMaxX, borderMaxY).

(** The box of line 64, right and lower edge excluded. *)
Definition paste_box (ribbonDimensions : Z * Z) (ox oy : Z) : Z * Z * Z * Z :=
  (ox, oy, ox + fst ribbonDimensions, oy + snd ribbonDimensions).

(** Lines 59-64 for a tile whose origin is known. *)
Definition place_at (ribbonDimensions : Z * Z) (outlineColorRGBA : Pixel)
    (resultImage : Image) (ox oy : Z) (ribbon : Image) : result Image :=
  (let* resultImage :=
     rectangle resultImage (border_box ribbonDimensions ox oy) outlineColorRGBA in
   let ribbon := convert RGBA ribbon in
   paste false resultImage ribbon (paste_box ribbonDimensions ox oy))%py.

(** The body of the inner loop, lines 50-64. *)
Definition place_ribbon (ribbonDimensions : Z * Z) (ribbonsPerRow : Z)
    (outlineColorRGBA : Pixel) (rowAmount rowIndex rowLength : Z)
    (resultImage : Image) (entry : Z * Image) : result Image :=
  let '(ribbonIndex, ribbon) := entry in
  place_at ribbonDimensions outlineColorRGBA resultImage
    (ribbonOriginX ribbonDimensions ribbonsPerRow rowLength ribbonIndex)
    (ribbonOriginY ribbonDimensions rowAmount rowIndex)
    ribbon.

(** The body of the outer loop, lines 48-64. *)
Definition place_row (ribbonDimensions : Z * Z) (ribbonsPerRow : Z)
    (outlineColorRGBA : Pixel) (rowAmount : Z)
    (resultImage : Image) (entry : Z * list Image) : result Image :=
  let '(rowIndex, row) := entry in
  let rowLength := len row in
  for_each
    (place_ribbon ribbonDimensions ribbonsPerRow outlineColorRGBA
       rowAmount rowIndex rowLength)
    (enumerate row) resultImage.

(** Lines 45-66, once the rows are known. *)
Definition arrange_rows (rows : list (list Image)) (ribbonDimensions : Z * Z)
    (ribbonsPerRow : Z) (outlineColorRGBA : Pixel) : result Image :=
  let rowAmount := len rows in
  (let* resultImage :=
     new RGBA (1 + (fst ribbonDimensions + 1) * ribbonsPerRow,
               rowAmount * (snd ribbonDimensions + 1) + 1)
         (255, 255, 255, 0) in
   for_each
     (place_row ribbonDimensions ribbonsPerRow outlineColorRGBA rowAmount)
     (enumerate rows) resultImage)%py.

Definition arrangeRibbons (fuel : nat) (ribbons : list Image)
    (ribbonDimensions : Z * Z) (ribbonsPerRow : Z) (outlineColorRGBA : Pixel)
  : option (result Image) :=
  match split_rows fuel ribbons ribbonsPerRow [] with
  | None => None
  | Some rows =>
      Some (arrange_rows rows ribbonDimensions ribbonsPerRow outlineColorRGBA)
  end.

(** *** [placeRibbonGrid] and [makeNametape] *)

Local Open Scope store_scope.

Definition warn_tshirt_mode : string :=
  "Warning: The t-shirt provided for placeRibbonGrid() wasn't in mode 'RGBA' and may have incorrect transparency.".
Definition warn_ribbons_mode : string :=
  "Warning: The ribbon image provided for placeRibbonGrid() wasn't in mode 'RGBA' and may have incorrect transparency.".
Definition warn_origin : string :=
  "Warning: The origin was placed outside of the t-shirt. Ribbons may be partially obscured.".
Definition warn_template_mode : string :=
  "Warning: nametape template for makeNametape wasn't in RGBA color mode and output was converted to RGBA.".
Definition warn_text_long : string :=
  "Warning: The text for the nametape was longer than the template and will be cut off.".

Definition placeRibbonGrid (tShirt ribbons : loc) (origin : Z * Z)
    (alignTop : bool) : M loc :=
  let resultImage := tShirt in
  do im <- get resultImage;
  do resultImage <-
    (if negb (mode_eqb (mode im) RGBA)
     then do _ <- print warn_tshirt_mode; Obj.convert resultImage RGBA
     else ret resultImage);
  do rb <- get ribbons;
  do ribbons <-
    (if negb (mode_eqb (mode rb) RGBA)
     then do _ <- print warn_ribbons_mode; Obj.convert ribbons RGBA
     else ret ribbons);
  do ts <- get tShirt;
  do _ <-
    (if negb ((0 <=? fst origin) && (fst origin <? fst (size ts)))
        || negb ((0 <=? snd origin) && (snd origin <? snd (size ts)))
     then print warn_origin
     else ret tt);
  do rb <- get ribbons;
  let origin :=
    if negb alignTop then (fst origin, snd origin - snd (size rb)) else origin in
  do _ <-
    Obj.paste resultImage ribbons
      (fst origin, snd origin,
       fst origin + fst (size rb), snd origin + snd (size rb));
  ret resultImage.

Definition makeNametape (template : loc) (text : string) (font : ImageFont)
    (color : Pixel) : M loc :=
  let nametape := template in
  do im <- get nametape;
  do _ <-
    (if negb (mode_eqb (mode im) RGBA)
     then do _ <- print warn_template_mode;
          do resultImage <- Obj.convert nametape RGBA;
          ret tt
     else ret tt);
  do nametapeDraw <- Obj.Draw nametape (Some RGBA);
  do measured <- Obj.textlength nametapeDraw text font;
  let textLength := int_of_float measured in
  do im <- get nametape;
  do _ <-
    (if fst (size im) <? textLength then print warn_text_long else ret tt);
  let templateCenterX := fst (size im) / 2 in
  let textCenterX := textLength / 2 in
  do _ <- Obj.text nametapeDraw (templateCenterX - textCenterX, 1) text color font;
  ret nametape.

End Shirtmaker.

Export Shirtmaker.

(** ** The layout, for the statements

    What the properties below speak of: the placements the two loops of
    [arrangeRibbons] make, the size of its canvas, and the quantities of
    the specification. *)

Module Layout.

(** The placements of a run, in the order the loops make them: row and
    column index, length of the row, origin and tile. *)
Record Placement : Type := mkPlacement {
  p_row : Z;
  p_col : Z;
  p_rowLength : Z;
  p_x : Z;
  p_y : Z;
  p_tile : Image
}.

Definition row_placements (ribbonDimensions : Z * Z) (ribbonsPerRow rowAmount : Z)
    (entry : Z * list Image) : list Placement :=
  let '(rowIndex, row) := entry in
  map (fun e : Z * Image =>
         mkPlacement rowIndex (fst e) (len row)
           (ribbonOriginX ribbonDimensions ribbonsPerRow (len row) (fst e))
           (ribbonOriginY ribbonDimensions rowAmount rowIndex)
           (snd e))
      (enumerate row).

Definition placements (rows : list (list Image)) (ribbonDimensions : Z * Z)
    (ribbonsPerRow : Z) : list Placement :=
  concat (map (row_placements ribbonDimensions ribbonsPerRow (len rows))
              (enumerate rows)).

(** The pixels a placed tile covers. *)
Definition in_footprint (ribbonDimensions : Z * Z) (p : Placement) (x y : Z) : bool :=
  (p_x p <=? x) && (x <? p_x p + fst ribbonDimensions)
  && (p_y p <=? y) && (y <? p_y p + snd ribbonDimensions).


(** The size of the canvas, line 46. *)
Definition canvas_size (ribbonDimensions : Z * Z) (ribbonsPerRow rowAmount : Z)
  : Z * Z :=
  (1 + (fst ribbonDimensions + 1) * ribbonsPerRow,
   rowAmount * (snd ribbonDimensions + 1) + 1).

(** [ceil(n / k)] for a positive [k]. *)
Definition ceil_div (n k : Z) : Z := (n + k - 1) / k.

(** The vertical origin in the simpler form the specification gives. *)
Definition simple_origin_y (tileHeight r : Z) : Z := r * (tileHeight + 1) + 1.

End Layout.

Export Layout.

(** ** Sample objects *)

Module Samples.

(** A ribbon of the default size in one colour, as an RGB file decodes. *)
Definition ribbon (shade : Z) : Image :=
  mkImage RGB (9, 3) (fun _ _ => (shade, shade, shade, 255)).

Definition six_ribbons : list Image :=
  [ribbon 10; ribbon 20; ribbon 30; ribbon 40; ribbon 50; ribbon 60].

Definition outline : Pixel := (80, 80, 80, 255).

End Samples.

(** ** The effect of the guards of [placeRibbonGrid], for the statements *)

Module Effects.

(** The world after [print(msg)] if [b], and the world itself if not. *)
Definition noted (b : bool) (msg : string) (w : World) : World :=
  if b then mkWorld (heap w) (stdout w ++ [msg]) else w.

(** What a mode guard makes of the object [l], whose image is [im]: an
    RGBA object stays, any other is announced and replaced by a new
    RGBA object at the end of the store. *)
Definition as_RGBA (msg : string) (l : loc) (im : Image) (w : World)
  : loc * World :=
  if mode_eqb (mode im) RGBA then (l, w)
  else (length (heap w),
        mkWorld (heap w ++ [convert RGBA im]) (stdout w ++ [msg])).

Definition outside (origin : Z * Z) (im : Image) : bool :=
  negb ((0 <=? fst origin) && (fst origin <? fst (size im)))
  || negb ((0 <=? snd origin) && (snd origin <? snd (size im))).

(** The box [placeRibbonGrid] pastes into. *)
Definition target_box (origin : Z * Z) (alignTop : bool) (overlay : Image)
  : Z * Z * Z * Z :=
  let y := if alignTop then snd origin else snd origin - height overlay in
  (fst origin, y, fst origin + width overlay, y + height overlay).

Definition in_box (box : Z * Z * Z * Z) (x y : Z) : Prop :=
  let '(x0, y0, x1, y1) := box in x0 <= x < x1 /\ y0 <= y < y1.

End Effects.

Export Effects.

Module Scenes.

(** An RGB garment of 4x4 and a translucent RGBA patch of 2x2, in a
    store of their own. *)
Definition rgb_canvas : Image :=
  mkImage RGB (4, 4) (fun _ _ => (1, 2, 3, 255)).

Definition rgba_canvas : Image :=
  mkImage RGBA (4, 4) (fun _ _ => (1, 2, 3, 255)).

Definition rgba_patch : Image :=
  mkImage RGBA (2, 2) (fun x y => (9, x, y, 128)).

Definition rgb_world : World := mkWorld [rgb_canvas; rgba_patch] [].
Definition rgba_world : World := mkWorld [rgba_canvas; rgba_patch] [].

End Scenes.

Module Nametapes.

(** The number of characters of a text (the bytes that are no
    continuation bytes), and whether all of them are below U+0100 (in
    UTF-8: no byte from 196 on). *)
Definition characters (s : string) : Z :=
  Z.of_nat
    (length
       (List.filter (fun c => negb ((128 <=? Z.of_nat (Ascii.nat_of_ascii c))
                               && (Z.of_nat (Ascii.nat_of_ascii c) <? 192)))
               (String.list_ascii_of_string s))).

Definition latin1 (s : string) : bool :=
  forallb (fun c => Z.of_nat (Ascii.nat_of_ascii c) <? 196)
          (String.list_ascii_of_string s).

(** A bitmap font, 5 pixels tall, every character 6 pixels wide, which
    encodes its text in Latin-1; the mask is the box of the text. *)
Definition block_font : ImageFont :=
  mkFont (fun s =>
            if latin1 s then Ok (inject_Z (6 * characters s))
            else Raise UnicodeEncodeError)
         (fun s x y =>
            (0 <=? x) && (x <? 6 * characters s) && (0 <=? y) && (y <? 5)).

(** A capital omega, U+03A9. *)
Definition omega : string :=
  String (Ascii.ascii_of_nat 206) (String (Ascii.ascii_of_nat 169) EmptyString).

Definition white : Pixel := (255, 255, 255, 255).

Definition template (m : Mode) : Image :=
  mkImage m (50, 7) (fun _ _ => (0, 64, 0, 255)).

Definition world (m : Mode) : World := mkWorld [template m] [].

(** A scalable font that measures every text at 50.5 pixels. *)
Definition fine_font : ImageFont :=
  mkFont (fun _ => Ok (101 # 2))
         (fun _ x y => (0 <=? x) && (x <? 51) && (0 <=? y) && (y <? 5)).

(** Ten characters: 60 pixels on a template of 50. *)
Definition long_name : string := "LIEUTENANT".

Definition two_lines : string :=
  String.append "A" (String (Ascii.ascii_of_nat 10) "B").

End Nametapes.

(** ** The blank garment *)

Module Factory.

Local Open Scope store_scope.

(** Lines 18-25: a new object each time. *)
Definition newTShirt : M loc :=
  do im <- lift (new RGBA (128, 128) (0, 0, 0, 0)); alloc im.

(** The defaults of [arrangeRibbons], line 27. *)
Definition default_dimensions : Z * Z := (9, 3).
Definition default_per_row : Z := 4.
Definition default_outline : Pixel := (80, 80, 80, 255).

End Factory.

Export Factory.

(** ** The cells of the grid, for the statements *)

Module Cells.

(** The pixels of the border rectangle of a placement, frame and inside. *)
Definition in_border (ribbonDimensions : Z * Z) (p : Placement) (x y : Z) : bool :=
  (p_x p - 1 <=? x) && (x <=? p_x p + fst ribbonDimensions)
  && (p_y p - 1 <=? y) && (y <=? p_y p + snd ribbonDimensions).

(** The pixels of the frame itself: what line 60 paints. *)
Definition on_border (ribbonDimensions : Z * Z) (p : Placement) (x y : Z) : bool :=
  on_outline (border_box ribbonDimensions (p_x p) (p_y p)) x y.

(** No tile lies under the border rectangle of the other placement. *)
Definition apart (ribbonDimensions : Z * Z) (p q : Placement) : Prop :=
  forall x y,
    (in_footprint ribbonDimensions p x y = true ->
     in_border ribbonDimensions q x y = false) /\
    (in_footprint ribbonDimensions q x y = true ->
     in_border ribbonDimensions p x y = false).

(** The background [arrangeRibbons] starts from, line 46. *)
Definition background : Pixel := (255, 255, 255, 0).

End Cells.

Export Cells.

(** Case analysis on every integer comparison of the goal. *)
Ltac zbool :=
  repeat match goal with
    | |- context [Z.ltb ?a ?b] => destruct (Z.ltb_spec a b)
    | |- context [Z.leb ?a ?b] => destruct (Z.leb_spec a b)
    | |- context [Z.eqb ?a ?b] => destruct (Z.eqb_spec a b)
    end;
  cbn [andb orb negb].

(** * Properties *)

(** ** Python sequences *)

Section Sequences.

Context {A : Type}.
Implicit Types (xs : list A) (i : Z).

Lemma len_nonneg xs : 0 <= len xs.
Proof. unfold len. lia. Qed.

Lemma len_app xs ys : len (xs ++ ys) = len xs + len ys.
Proof. unfold len. rewrite length_app. lia. Qed.

Lemma len_nil_iff xs : len xs = 0 <-> xs = [].
Proof.
  unfold len. split; [|intros ->; reflexivity].
  destruct xs; [reflexivity|]. cbn [length]. lia.
Qed.

(** A prefix slice with a bound between 0 and the length is [take]. *)
Lemma slice_prefix xs m :
  0 <= m <= len xs -> slice xs 0 m = take (Z.to_nat m) xs.
Proof.
  intros Hm. unfold slice, slice_bound.
  pose proof (len_nonneg xs).
  replace (0 <? 0) with false by reflexivity.
  destruct (Z.ltb_spec m 0); [lia|].
  rewrite Z.min_l by lia. rewrite Z.min_l by lia.
  rewrite Z.sub_0_r. reflexivity.
Qed.

Lemma slice_from_suffix xs m :
  0 <= m <= len xs -> slice_from xs m = drop (Z.to_nat m) xs.
Proof.
  intros Hm. unfold slice_from, slice_bound.
  destruct (Z.ltb_spec m 0); [lia|].
  rewrite Z.min_l by lia. reflexivity.
Qed.

Lemma enumerate_from_lookup xs : forall i j (x : A),
  In (j, x) (enumerate_from i xs) <->
  i <= j /\ xs !! Z.to_nat (j - i) = Some x.
Proof.
  induction xs as [|a xs IH]; intros i j x; cbn [enumerate_from In].
  - split; [intros [] | intros [_ H]; discriminate].
  - rewrite IH. split.
    + intros [Heq | [Hle Hl]].
      * injection Heq as -> ->. rewrite Z.sub_diag. split; [lia | reflexivity].
      * split; [lia|].
        replace (Z.to_nat (j - i)) with (S (Z.to_nat (j - (i + 1)))) by lia.
        exact Hl.
    + intros [Hle Hl]. destruct (Z.eq_dec j i) as [-> | Hne].
      * left. rewrite Z.sub_diag in Hl. change (Some a = Some x) in Hl. congruence.
      * right. split; [lia|].
        replace (Z.to_nat (j - i)) with (S (Z.to_nat (j - (i + 1)))) in Hl by lia.
        exact Hl.
Qed.

Lemma enumerate_lookup xs j (x : A) :
  In (j, x) (enumerate xs) <-> 0 <= j /\ xs !! Z.to_nat j = Some x.
Proof.
  unfold enumerate. rewrite enumerate_from_lookup, Z.sub_0_r. reflexivity.
Qed.

Lemma enumerate_from_bound xs i j (x : A) :
  In (j, x) (enumerate_from i xs) -> i <= j < i + len xs.
Proof.
  rewrite enumerate_from_lookup. intros [Hle Hl].
  apply lookup_lt_Some in Hl. unfold len. lia.
Qed.

Lemma enumerate_from_Forall (P : A -> Prop) xs : forall i,
  Forall P xs -> Forall (fun e => P (snd e)) (enumerate_from i xs).
Proof.
  intros i H. revert i.
  induction H as [|x xs Hx _ IH]; intros i; cbn [enumerate_from];
    constructor; auto.
Qed.

End Sequences.

Section Loops.

Context {A S : Type}.

Lemma for_each_app (body : S -> A -> result S) (xs ys : list A) (s : S) :
  for_each body (xs ++ ys) s =
  Py.bind (for_each body xs s) (for_each body ys).
Proof.
  revert s. induction xs as [|x xs IH]; intros s; cbn [for_each app Py.bind].
  - reflexivity.
  - destruct (body s x) as [s'|e]; cbn [Py.bind]; [apply IH | reflexivity].
Qed.

Lemma for_each_map {B} (f : B -> A) (body1 : S -> B -> result S)
    (body2 : S -> A -> result S) (xs : list B) :
  (forall s x, body1 s x = body2 s (f x)) ->
  forall s, for_each body1 xs s = for_each body2 (map f xs) s.
Proof.
  intros Hext. induction xs as [|x xs IH]; intros s; cbn [for_each map].
  - reflexivity.
  - rewrite Hext. destruct (body2 s (f x)); cbn [Py.bind]; auto.
Qed.

(** A loop whose body keeps an invariant and cannot raise under it
    finishes, and the invariant holds at the end. *)
Lemma for_each_invariant (inv : S -> Prop) (ok : A -> Prop)
    (body : S -> A -> result S) (xs : list A) (s : S) :
  (forall s x, inv s -> ok x -> exists s', body s x = Ok s' /\ inv s') ->
  Forall ok xs -> inv s ->
  exists s', for_each body xs s = Ok s' /\ inv s'.
Proof.
  intros Hbody Hxs. revert s.
  induction Hxs as [|x xs Hx _ IH]; intros s Hs; cbn [for_each].
  - eauto.
  - destruct (Hbody s x Hs Hx) as (s' & -> & Hs'). cbn [Py.bind]. auto.
Qed.

End Loops.

(** ** The layout arithmetic *)

Lemma ribbonOriginX_quot tw th k rowLength c :
  ribbonOriginX (tw, th) k rowLength c =
  Z.quot ((tw + 1) * (k - rowLength) + 2 * ((tw + 1) * c + 1)) 2.
Proof.
  unfold ribbonOriginX, int_of_float. cbn [fst snd].
  cbn -[Z.mul Z.add Z.sub Z.quot].
  f_equal; lia.
Qed.

(** With a row no longer than the maximum and a tile that has a width, the
    truncation is a floor of the half of the free space. *)
Lemma ribbonOriginX_floor tw th k rowLength c :
  0 <= tw + 1 -> rowLength <= k -> 0 <= c ->
  ribbonOriginX (tw, th) k rowLength c =
  (tw + 1) * (k - rowLength) / 2 + (tw + 1) * c + 1.
Proof.
  intros Htw HL Hc. rewrite ribbonOriginX_quot.
  rewrite Z.quot_div_nonneg by nia.
  replace ((tw + 1) * (k - rowLength) + 2 * ((tw + 1) * c + 1))
    with ((tw + 1) * (k - rowLength) + ((tw + 1) * c + 1) * 2) by lia.
  rewrite Z.div_add by lia. lia.
Qed.

Lemma ribbonOriginY_simple dims rowAmount r :
  ribbonOriginY dims rowAmount r = r * (snd dims + 1) + 1.
Proof. unfold ribbonOriginY. lia. Qed.

Lemma ceil_div_step n k :
  1 <= k -> 0 < n -> ceil_div n k = 1 + ceil_div (n - Z.min n k) k.
Proof.
  intros Hk Hn. unfold ceil_div.
  destruct (Z.le_gt_cases n k) as [Hle | Hgt].
  - rewrite Z.min_l by lia. replace (n - n + k - 1) with (k - 1) by lia.
    rewrite (Z.div_small (k - 1)) by lia.
    replace (n + k - 1) with ((n - 1) + 1 * k) by lia.
    rewrite Z.div_add by lia. rewrite Z.div_small by lia. lia.
  - rewrite Z.min_r by lia.
    replace (n + k - 1) with ((n - k + k - 1) + 1 * k) by lia.
    rewrite Z.div_add by lia. lia.
Qed.

Lemma ceil_div_0 k : 1 <= k -> ceil_div 0 k = 0.
Proof. intros Hk. unfold ceil_div. apply Z.div_small. lia. Qed.

(** [ceil_div n k] is the least number of groups of [k] that hold [n]. *)
Lemma ceil_div_spec n k :
  1 <= k -> 0 <= n -> (ceil_div n k - 1) * k < n <= ceil_div n k * k \/ n = 0.
Proof.
  intros Hk Hn. unfold ceil_div.
  pose proof (Z.div_mod (n + k - 1) k ltac:(lia)) as Hdm.
  pose proof (Z.mod_pos_bound (n + k - 1) k ltac:(lia)) as Hb.
  destruct (Z.eq_dec n 0); [right; assumption | left]. nia.
Qed.

(** ** The partition into rows *)

Section Rows.

Variable k : Z.

(** Whatever the loop returns is a partition of the tiles into
    [ceil(n/k)] consecutive non-empty rows of at most [k] tiles. *)
Lemma split_rows_sound (Hk : 1 <= k) : forall fuel ribbons acc rows,
  split_rows fuel ribbons k acc = Some rows ->
  exists rows',
    rows = acc ++ rows' /\ concat rows' = ribbons /\
    len rows' = ceil_div (len ribbons) k /\
    Forall (fun row => 1 <= len row <= k) rows'.
Proof.
  induction fuel as [|fuel IH]; intros ribbons acc rows; cbn [split_rows].
  - discriminate.
  - pose proof (len_nonneg ribbons) as Hn.
    destruct (Z.ltb_spec 0 (len ribbons)) as [Hpos | Hzero].
    + set (m := Z.min (len ribbons) k).
      assert (Hm : 1 <= m <= len ribbons) by (unfold m; lia).
      rewrite slice_prefix, slice_from_suffix by lia.
      intros Hrun. apply IH in Hrun as (rows' & -> & Hcat & Hlen & Hall).
      exists (take (Z.to_nat m) ribbons :: rows').
      assert (Htake : len (take (Z.to_nat m) ribbons) = m).
      { unfold len in *. rewrite length_take. lia. }
      assert (Hdrop : len (drop (Z.to_nat m) ribbons) = len ribbons - m).
      { unfold len in *. rewrite length_drop. lia. }
      split; [now rewrite <- app_assoc|].
      split; [cbn [concat]; rewrite Hcat; apply take_drop|].
      split.
      * change (len (take (Z.to_nat m) ribbons :: rows')) with (len ([take (Z.to_nat m) ribbons] ++ rows')).
        rewrite len_app, Hlen, Hdrop.
        rewrite (ceil_div_step (len ribbons) k) by lia. reflexivity.
      * constructor; [rewrite Htake; unfold m; lia | exact Hall].
    + intros [= <-]. exists []. rewrite app_nil_r.
      assert (ribbons = []) as -> by (apply len_nil_iff; lia).
      split; [reflexivity|]. split; [reflexivity|].
      split; [now rewrite ceil_div_0 | constructor].
Qed.

(** One iteration more than there are tiles is always enough. *)
Lemma split_rows_terminates (Hk : 1 <= k) : forall fuel ribbons acc,
  (length ribbons < fuel)%nat -> is_Some (split_rows fuel ribbons k acc).
Proof.
  induction fuel as [|fuel IH]; intros ribbons acc Hfuel; [lia|].
  cbn [split_rows]. pose proof (len_nonneg ribbons) as Hn.
  destruct (Z.ltb_spec 0 (len ribbons)) as [Hpos | Hzero]; [|eauto].
  rewrite slice_from_suffix by lia. apply IH.
  rewrite length_drop. unfold len in *. lia.
Qed.

(** With no positive row size the loop never empties a non-empty list. *)
Lemma split_rows_diverges (Hk : k <= 0) : forall fuel ribbons acc,
  ribbons <> [] -> split_rows fuel ribbons k acc = None.
Proof.
  induction fuel as [|fuel IH]; intros ribbons acc Hne; [reflexivity|].
  cbn [split_rows]. pose proof (len_nonneg ribbons) as Hn.
  assert (Hpos : 0 < len ribbons).
  { destruct (Z.eq_dec (len ribbons) 0) as [H0|]; [|lia].
    apply len_nil_iff in H0. contradiction. }
  destruct (Z.ltb_spec 0 (len ribbons)); [|lia].
  apply IH. intros Hnil.
  apply (f_equal length) in Hnil. unfold slice_from in Hnil.
  rewrite length_drop in Hnil. cbn [length] in Hnil.
  revert Hnil. unfold slice_bound. rewrite Z.min_r by lia.
  unfold len in *. destruct (Z.ltb_spec k 0); lia.
Qed.

End Rows.

(** ** Pillow: what a paste and a rectangle do to the pixels *)



Lemma mode_eqb_eq a b : mode_eqb a b = true <-> a = b.
Proof. destruct a, b; cbn; split; congruence. Qed.

Lemma mode_eqb_refl a : mode_eqb a a = true.
Proof. now apply mode_eqb_eq. Qed.

Lemma convert_mode m im : mode (convert m im) = m.
Proof.
  unfold convert. destruct (mode_eqb (mode im) m) eqn:E; [|reflexivity].
  now apply mode_eqb_eq.
Qed.

Lemma convert_size m im : size (convert m im) = size im.
Proof. unfold convert. now destruct (mode_eqb (mode im) m). Qed.

Lemma convert_same m im : mode im = m -> convert m im = im.
Proof. intros <-. unfold convert. now rewrite mode_eqb_refl. Qed.

Section PasteRows.

Variables (im : Image) (dx dy sx sy xsize : Z).

Lemma paste_rows_shape same : forall rows y out,
  size (paste_rows rows y same out im dx dy sx sy xsize) = size out /\
  mode (paste_rows rows y same out im dx dy sx sy xsize) = mode out.
Proof.
  induction rows as [|rows IH]; intros y out; cbn [paste_rows]; [auto|].
  destruct (IH (y + 1) (copy_row out (if same then out else im)
                          (y + dy) (y + sy) dx sx xsize)) as [-> ->].
  auto.
Qed.

(** Pixels outside the copied rows and columns keep their value, also
    when an image is pasted onto itself. *)
Lemma paste_rows_frame same : forall rows y0 out x y,
  ~ (y0 + dy <= y < y0 + dy + Z.of_nat rows /\ dx <= x < dx + xsize) ->
  getpixel (paste_rows rows y0 same out im dx dy sx sy xsize) x y =
  getpixel out x y.
Proof.
  induction rows as [|rows IH]; intros y0 out x y Hout; cbn [paste_rows];
    [reflexivity|].
  rewrite IH by lia. unfold copy_row, with_pixels. cbn [getpixel].
  zbool; try reflexivity. lia.
Qed.

(** Pasting another image: inside the region the pixels are the source's. *)
Lemma paste_rows_pixel : forall rows y0 out x y,
  getpixel (paste_rows rows y0 false out im dx dy sx sy xsize) x y =
  if (y0 + dy <=? y) && (y <? y0 + dy + Z.of_nat rows)
     && (dx <=? x) && (x <? dx + xsize)
  then getpixel im (x - dx + sx) (y - dy + sy)
  else getpixel out x y.
Proof.
  induction rows as [|rows IH]; intros y0 out x y; cbn [paste_rows].
  - zbool; try reflexivity. lia.
  - rewrite IH. unfold copy_row, with_pixels. cbn [getpixel].
    zbool; try reflexivity; try lia.
    f_equal; lia.
Qed.

End PasteRows.


Lemma extent_range z : 0 <= extent z <= INT_MAX.
Proof. unfold extent, INT_MAX. lia. Qed.

Lemma extent_id z : 0 <= z <= INT_MAX -> extent z = z.
Proof. unfold extent, INT_MAX. lia. Qed.

Lemma size_range im :
  0 <= width im <= INT_MAX /\ 0 <= height im <= INT_MAX.
Proof. unfold width, height, size. cbn [fst snd]. split; apply extent_range. Qed.

Lemma size_mkImage m w h px :
  0 <= w <= INT_MAX -> 0 <= h <= INT_MAX -> size (mkImage m (w, h) px) = (w, h).
Proof. intros Hw Hh. unfold size. cbn [stored_size fst snd]. now rewrite !extent_id. Qed.

Lemma is_int_spec z : is_int z = true <-> INT_MIN <= z <= INT_MAX.
Proof. unfold is_int. rewrite andb_true_iff, !Z.leb_le. tauto. Qed.

Lemma int_box_spec x0 y0 x1 y1 :
  int_box (x0, y0, x1, y1) = true <->
  (INT_MIN <= x0 <= INT_MAX /\ INT_MIN <= y0 <= INT_MAX) /\
  (INT_MIN <= x1 <= INT_MAX /\ INT_MIN <= y1 <= INT_MAX).
Proof.
  unfold int_box. rewrite !andb_true_iff, !is_int_spec. tauto.
Qed.

Section PasteCore.

Variables (out im : Image) (x0 y0 x1 y1 : Z).

(** A paste raises exactly when an edge of the box is no C [int] or the
    box has not the size of the pasted image. *)
Lemma paste_core_ok same :
  int_box (x0, y0, x1, y1) = true ->
  x1 - x0 = width im -> y1 - y0 = height im ->
  exists out', paste_core same out im (x0, y0, x1, y1) = Ok out'.
Proof.
  intros Hint Hw Hh. unfold paste_core. rewrite Hint. cbn [negb].
  rewrite <- Hw, <- Hh, !Z.eqb_refl. cbn [negb orb].
  match goal with |- context [if ?c then Ok out else _] => destruct c end;
    eauto.
Qed.

Lemma paste_core_mismatch same :
  x1 - x0 <> width im \/ y1 - y0 <> height im ->
  exists e, paste_core same out im (x0, y0, x1, y1) = Raise e.
Proof.
  intros H. unfold paste_core.
  destruct (int_box (x0, y0, x1, y1)); cbn [negb]; [|eauto].
  destruct (Z.eqb_spec (x1 - x0) (width im)), (Z.eqb_spec (y1 - y0) (height im));
    cbn [negb orb]; eauto.
  lia.
Qed.

Lemma paste_core_overflow same :
  int_box (x0, y0, x1, y1) = false ->
  paste_core same out im (x0, y0, x1, y1)
  = Raise OverflowError.
Proof. intros H. unfold paste_core. now rewrite H. Qed.

Lemma paste_core_shape same out' :
  paste_core same out im (x0, y0, x1, y1) = Ok out' ->
  size out' = size out /\ mode out' = mode out.
Proof.
  unfold paste_core.
  destruct (negb (int_box _)); [discriminate|].
  destruct (negb _ || negb _); [discriminate|].
  match goal with |- context [if ?c then Ok out else _] => destruct c end;
    intros [= <-]; [auto | apply paste_rows_shape].
Qed.

Lemma paste_core_frame same out' :
  paste_core same out im (x0, y0, x1, y1) = Ok out' ->
  forall x y, ~ (x0 <= x < x1 /\ y0 <= y < y1) ->
  getpixel out' x y = getpixel out x y.
Proof.
  unfold paste_core.
  destruct (negb (int_box _)); [discriminate|].
  destruct (negb _ || negb _); [discriminate|].
  match goal with |- context [if ?c then Ok out else _] => destruct c eqn:E end;
    intros [= <-] x y Hout; [reflexivity|].
  apply paste_rows_frame.
  apply orb_false_iff in E as [E1 E2].
  apply Z.leb_gt in E1, E2.
  revert E1 E2. zbool; intros; lia.
Qed.

Lemma paste_core_inside out' :
  paste_core false out im (x0, y0, x1, y1) = Ok out' ->
  forall x y, x0 <= x < x1 -> y0 <= y < y1 ->
  in_image out x y = true ->
  getpixel out' x y = getpixel im (x - x0) (y - y0).
Proof.
  unfold paste_core, in_image.
  destruct (negb (int_box _)); [discriminate|].
  destruct (negb _ || negb _); [discriminate|].
  match goal with |- context [if ?c then Ok out else _] => destruct c eqn:E end;
    intros [= <-] x y Hx Hy Hin;
    apply andb_true_iff in Hin as [Hin Hy2];
    apply andb_true_iff in Hin as [Hin Hy1];
    apply andb_true_iff in Hin as [Hx1 Hx2];
    apply Z.leb_le in Hx1, Hy1; apply Z.ltb_lt in Hx2, Hy2.
  - exfalso. apply orb_true_iff in E. revert E. zbool; intros [E|E]; lia.
  - rewrite paste_rows_pixel.
    apply orb_false_iff in E as [E1 E2]. apply Z.leb_gt in E1, E2.
    revert E1 E2. zbool; intros; try lia; f_equal; lia.
Qed.

End PasteCore.


Lemma rectangle_ok im x0 y0 x1 y1 outline :
  x0 <= x1 -> y0 <= y1 ->
  rectangle im (x0, y0, x1, y1) outline =
  Ok (with_pixels im (fun x y =>
        if on_outline (x0, y0, x1, y1) x y then outline else getpixel im x y)).
Proof.
  intros Hx Hy. unfold rectangle.
  destruct (Z.ltb_spec x1 x0); [lia|]. destruct (Z.ltb_spec y1 y0); [lia|].
  reflexivity.
Qed.

(** ** [arrangeRibbons]: the loops *)

Section Arrange.

Variables (tw th k : Z) (color : Pixel).
Local Abbreviation dims := (tw, th).

(** Drawing the border and pasting a tile of the announced size, at an
    origin a C [int] can hold, cannot raise, and leaves the size and the
    mode of the canvas alone. *)
Lemma place_at_ok img ox oy ribbon :
  -1 <= tw -> -1 <= th ->
  mode img = RGBA -> size ribbon = dims ->
  int_box (paste_box dims ox oy) = true ->
  exists img',
    place_at dims color img ox oy ribbon = Ok img' /\
    size img' = size img /\ mode img' = RGBA.
Proof.
  intros Htw Hth Hmode Hsize Hint. unfold place_at, border_box, paste_box in *.
  cbn [fst snd] in *. rewrite rectangle_ok by lia. cbn [Py.bind].
  unfold PIL.paste. cbn [with_pixels mode].
  rewrite Hmode, convert_mode. cbn [mode_eqb].
  destruct (paste_core_ok
              (with_pixels img (fun x y =>
                 if on_outline (ox - 1, oy - 1, ox - 1 + tw + 1, oy - 1 + th + 1) x y
                 then color else getpixel img x y))
              (convert RGBA ribbon) ox oy (ox + tw) (oy + th) false Hint)
    as [img' Himg'].
  { unfold width. rewrite convert_size, Hsize. cbn. lia. }
  { unfold height. rewrite convert_size, Hsize. cbn. lia. }
  exists img'. split; [exact Himg'|].
  apply paste_core_shape in Himg' as [-> ->]. cbn. auto.
Qed.

(** Whatever a placement returns has the size of the canvas and is RGBA. *)
Lemma place_at_shape img ox oy t img' :
  mode img = RGBA ->
  place_at dims color img ox oy t = Ok img' ->
  size img' = size img /\ mode img' = RGBA.
Proof.
  intros Hmode. unfold place_at.
  destruct (rectangle img _ color) as [drawn|e] eqn:Er; cbn [Py.bind];
    [|discriminate].
  assert (Hd : size drawn = size img /\ mode drawn = RGBA).
  { revert Er. unfold rectangle, border_box.
    repeat match goal with |- context [if ?b then _ else _] => destruct b end;
      try discriminate.
    intros [= <-]. cbn. auto. }
  destruct Hd as [Hds Hdm].
  unfold PIL.paste. rewrite Hdm, convert_mode. cbn [mode_eqb].
  intros Hp. apply paste_core_shape in Hp as [-> ->]. auto.
Qed.

(** A tile of another size makes the paste raise. *)
Lemma place_at_mismatch img ox oy ribbon :
  -1 <= tw -> -1 <= th ->
  mode img = RGBA -> size ribbon <> dims ->
  exists e, place_at dims color img ox oy ribbon = Raise e.
Proof.
  intros Htw Hth Hmode Hsize. unfold place_at, border_box, paste_box.
  cbn [fst snd]. rewrite rectangle_ok by lia. cbn [Py.bind].
  unfold PIL.paste. cbn [with_pixels mode].
  rewrite Hmode, convert_mode. cbn [mode_eqb].
  apply paste_core_mismatch. unfold width, height. rewrite convert_size.
  destruct (size ribbon) as [w h].
  destruct (Z.eq_dec w tw), (Z.eq_dec h th); cbn [fst snd]; subst;
    try (left; lia); try (right; lia).
  contradiction.
Qed.

(** The two nested loops make exactly the placements of [placements], in
    that order. *)
Lemma place_row_placements rowAmount img entry :
  place_row dims k color rowAmount img entry =
  for_each (fun s p => place_at dims color s (p_x p) (p_y p) (p_tile p))
           (row_placements dims k rowAmount entry) img.
Proof.
  destruct entry as [r row]. unfold place_row, row_placements.
  apply for_each_map. intros s [c t]. reflexivity.
Qed.

Lemma arrange_rows_placements rows :
  arrange_rows rows dims k color =
  Py.bind (new RGBA (canvas_size dims k (len rows)) (255, 255, 255, 0))
    (for_each (fun s p => place_at dims color s (p_x p) (p_y p) (p_tile p))
              (placements rows dims k)).
Proof.
  unfold arrange_rows, canvas_size, placements.
  destruct (new RGBA _ _) as [canvas|e]; cbn [Py.bind]; [|reflexivity].
  generalize (len rows) as n. generalize (enumerate rows) as es.
  intros es n. revert canvas.
  induction es as [|e es IH]; intros canvas; cbn [for_each map concat].
  - reflexivity.
  - rewrite for_each_app, place_row_placements.
    destruct (for_each _ (row_placements dims k n e) canvas);
      cbn [Py.bind]; auto.
Qed.

(** Which placements there are. *)
Lemma In_placements rows p :
  In p (placements rows dims k) <->
  exists row,
    0 <= p_row p /\ rows !! Z.to_nat (p_row p) = Some row /\
    0 <= p_col p /\ row !! Z.to_nat (p_col p) = Some (p_tile p) /\
    p_rowLength p = len row /\
    p_x p = ribbonOriginX dims k (len row) (p_col p) /\
    p_y p = ribbonOriginY dims (len rows) (p_row p).
Proof.
  unfold placements. rewrite in_concat. split.
  - intros (ps & Hps & Hp). apply in_map_iff in Hps as ([r row] & <- & Hr).
    apply enumerate_lookup in Hr as [Hr0 Hr].
    unfold row_placements in Hp.
    apply in_map_iff in Hp as ([c t] & <- & Hc).
    apply enumerate_lookup in Hc as [Hc0 Hc].
    exists row. cbn. auto 10.
  - intros (row & Hr0 & Hr & Hc0 & Hc & HL & Hx & Hy).
    exists (row_placements dims k (len rows) (p_row p, row)). split.
    + apply in_map_iff. exists (p_row p, row). split; [reflexivity|].
      now apply enumerate_lookup.
    + unfold row_placements. apply in_map_iff.
      exists (p_col p, p_tile p). split.
      * destruct p. cbn in *. congruence.
      * now apply enumerate_lookup.
Qed.

End Arrange.

(** ** The placements of a run *)

Section Placements.

Variables (tw th k : Z).
Local Abbreviation dims := (tw, th).

Variables (fuel : nat) (tiles : list Image) (rows : list (list Image)).
Hypothesis Hk : 1 <= k.
Hypothesis Hrows : split_rows fuel tiles k [] = Some rows.

Lemma rows_partition :
  concat rows = tiles /\ len rows = ceil_div (len tiles) k /\
  Forall (fun row => 1 <= len row <= k) rows.
Proof.
  destruct (split_rows_sound k Hk _ _ _ _ Hrows)
    as (rows' & -> & Hcat & Hlen & Hall).
  cbn [app]. auto.
Qed.

(** Where a placement sits in the partition. *)
Lemma placement_indices p :
  In p (placements rows dims k) ->
  0 <= p_row p < len rows /\
  1 <= p_rowLength p <= k /\
  0 <= p_col p < p_rowLength p /\
  p_x p = ribbonOriginX dims k (p_rowLength p) (p_col p) /\
  p_y p = ribbonOriginY dims (len rows) (p_row p).
Proof.
  intros Hp. apply In_placements in Hp
    as (row & Hr0 & Hr & Hc0 & Hc & HL & Hx & Hy).
  destruct rows_partition as (_ & _ & Hall).
  pose proof (Forall_lookup_1 _ _ _ _ Hall Hr) as Hlen. cbn beta in Hlen.
  apply lookup_lt_Some in Hr, Hc. rewrite HL. unfold len in *.
  repeat split; try lia; assumption.
Qed.

(** Two placements of the same row share the length of that row. *)
Lemma placement_same_row p q :
  In p (placements rows dims k) -> In q (placements rows dims k) ->
  p_row p = p_row q -> p_rowLength p = p_rowLength q.
Proof.
  intros Hp Hq Hr.
  apply In_placements in Hp as (row & _ & Hrow & _ & _ & HL & _).
  apply In_placements in Hq as (row' & _ & Hrow' & _ & _ & HL' & _).
  rewrite Hr in Hrow. congruence.
Qed.

(** A placement is determined by its row and column. *)
Lemma placement_unique p q :
  In p (placements rows dims k) -> In q (placements rows dims k) ->
  p_row p = p_row q -> p_col p = p_col q -> p = q.
Proof.
  intros Hp Hq Hr Hc.
  apply In_placements in Hp as (row & _ & Hrow & _ & Ht & HL & Hx & Hy).
  apply In_placements in Hq as (row' & _ & Hrow' & _ & Ht' & HL' & Hx' & Hy').
  rewrite Hr in Hrow. assert (row' = row) as -> by congruence.
  rewrite Hc in Ht. rewrite Hc in Hx. rewrite Hr in Hy.
  destruct p, q. cbn in *. congruence.
Qed.

End Placements.

Section PlacementsNoDup.

Variables (tw th k n : Z).
Local Abbreviation dims := (tw, th).

Lemma In_row_placements r row p :
  In p (row_placements dims k n (r, row)) -> p_row p = r /\ 0 <= p_col p.
Proof.
  unfold row_placements. intros Hp.
  apply in_map_iff in Hp as ([c t] & <- & Hc).
  apply enumerate_from_bound in Hc. cbn. lia.
Qed.

Lemma row_placements_NoDup r row : NoDup (row_placements dims k n (r, row)).
Proof.
  unfold row_placements, enumerate. generalize (len row) as rowLength.
  intros rowLength. generalize 0 as j.
  induction row as [|t row IH]; intros j; cbn [enumerate_from map].
  - constructor.
  - constructor; [|apply IH].
    rewrite list_elem_of_In, in_map_iff. intros ([c t'] & Heq & Hc).
    apply enumerate_from_bound in Hc.
    apply (f_equal p_col) in Heq. cbn in Heq. lia.
Qed.

Lemma placements_from_NoDup (rows : list (list Image)) : forall i,
  NoDup (concat (map (row_placements dims k n) (enumerate_from i rows))) /\
  forall p, In p (concat (map (row_placements dims k n) (enumerate_from i rows))) ->
            i <= p_row p.
Proof.
  induction rows as [|row rows IH]; intros i; cbn [enumerate_from map concat].
  - split; [constructor | intros p []].
  - destruct (IH (i + 1)) as [Hnd Hge]. split.
    + apply NoDup_app. split; [apply row_placements_NoDup|]. split; [|exact Hnd].
      intros p Hp Hp'. rewrite list_elem_of_In in Hp, Hp'.
      apply In_row_placements in Hp as [Hp _]. apply Hge in Hp'. lia.
    + intros p Hp. apply in_app_or in Hp as [Hp | Hp].
      * apply In_row_placements in Hp as [Hp _]. lia.
      * apply Hge in Hp. lia.
Qed.

End PlacementsNoDup.

Lemma placements_NoDup rows dims k : NoDup (placements rows dims k).
Proof.
  destruct dims as [tw th]. unfold placements, enumerate.
  apply placements_from_NoDup.
Qed.

(** The placements take the tiles in the order they were given. *)
Lemma placements_tiles rows dims k :
  map p_tile (placements rows dims k) = concat rows.
Proof.
  unfold placements, enumerate. generalize (len rows) as n. intros n.
  generalize 0 as i.
  induction rows as [|row rows IH]; intros i; cbn [enumerate_from map concat];
    [reflexivity|].
  rewrite map_app, IH. f_equal.
  unfold row_placements, enumerate. rewrite map_map. cbn [p_tile].
  generalize 0 as j. induction row as [|t row IHr]; intros j;
    cbn [enumerate_from map snd]; [reflexivity | f_equal; apply IHr].
Qed.

Lemma NoDup_ForallOrdPairs {A} (R : A -> A -> Prop) (l : list A) :
  NoDup l ->
  (forall a b, In a l -> In b l -> a <> b -> R a b) ->
  ForallOrdPairs R l.
Proof.
  induction 1 as [|a l Ha Hl IH]; intros HR; constructor.
  - apply Forall_forall. intros b Hb. rewrite list_elem_of_In in Hb.
    apply HR; [now left | now right |]. intros ->.
    apply Ha. now apply list_elem_of_In.
  - apply IH. intros b c Hb Hc. apply HR; now right.
Qed.

Section Geometry.

Variables (tw th k : Z).
Local Abbreviation dims := (tw, th).
Variables (fuel : nat) (tiles : list Image) (rows : list (list Image)).
Hypothesis Hk : 1 <= k.
Hypothesis Htw : 0 <= tw.
Hypothesis Hth : 0 <= th.
Hypothesis Hrows : split_rows fuel tiles k [] = Some rows.

(** The origin of a placement in integers. *)
Lemma placement_geometry p :
  In p (placements rows dims k) ->
  0 <= p_row p < len rows /\ 1 <= p_rowLength p <= k /\
  0 <= p_col p < p_rowLength p /\
  p_x p = (tw + 1) * (k - p_rowLength p) / 2 + (tw + 1) * p_col p + 1 /\
  p_y p = p_row p * (th + 1) + 1.
Proof.
  intros Hp.
  destruct (placement_indices tw th k fuel tiles rows Hk Hrows p Hp)
    as (Hr & HL & Hc & Hx & Hy).
  rewrite ribbonOriginX_floor in Hx by lia.
  rewrite ribbonOriginY_simple in Hy. cbn [snd] in Hy. auto 10.
Qed.

(** The border rectangle of a placement lies on the canvas. *)
Lemma placement_on_canvas p x y :
  In p (placements rows dims k) ->
  in_border dims p x y = true ->
  0 <= x < fst (canvas_size dims k (len rows)) /\
  0 <= y < snd (canvas_size dims k (len rows)).
Proof.
  intros Hp Hb. destruct (placement_geometry p Hp) as (Hr & HL & Hc & Hx & Hy).
  unfold in_border in Hb. cbn [fst snd canvas_size] in *.
  apply andb_true_iff in Hb as [Hb Hy2]. apply andb_true_iff in Hb as [Hb Hy1].
  apply andb_true_iff in Hb as [Hx1 Hx2].
  apply Z.leb_le in Hx1, Hx2, Hy1, Hy2.
  assert (HD : 0 <= (tw + 1) * (k - p_rowLength p)) by nia.
  pose proof (Z.div_pos _ 2 HD ltac:(lia)) as HD0.
  assert (HD1 : (tw + 1) * (k - p_rowLength p) / 2 <= (tw + 1) * (k - p_rowLength p)).
  { apply Z.div_le_upper_bound; lia. }
  split; nia.
Qed.

(** Two different placements keep apart. *)
Lemma placements_apart p q :
  In p (placements rows dims k) -> In q (placements rows dims k) ->
  p <> q -> apart dims p q.
Proof.
  intros Hp Hq Hne.
  assert (Hpq : p_row p <> p_row q \/
                (p_row p = p_row q /\ p_col p <> p_col q)).
  { destruct (Z.eq_dec (p_row p) (p_row q)) as [Er|]; [|auto].
    destruct (Z.eq_dec (p_col p) (p_col q)) as [Ec|]; [|auto].
    exfalso. apply Hne. exact (placement_unique tw th k rows p q Hp Hq Er Ec). }
  destruct (placement_geometry p Hp) as (Hr & HL & Hc & Hx & Hy).
  destruct (placement_geometry q Hq) as (Hr' & HL' & Hc' & Hx' & Hy').
  intros x y. unfold in_footprint, in_border. cbn [fst snd].
  rewrite Hx, Hy, Hx', Hy'.
  destruct Hpq as [Er | [Er Ec]].
  - assert (Hlt : p_row p < p_row q ->
                  (p_row p + 1) * (th + 1) <= p_row q * (th + 1)) by (intros; nia).
    assert (Hgt : p_row q < p_row p ->
                  (p_row q + 1) * (th + 1) <= p_row p * (th + 1)) by (intros; nia).
    split; intros Hf; revert Hf; zbool; intros Hf; try reflexivity;
      try discriminate; exfalso;
      destruct (Z.lt_total (p_row p) (p_row q)) as [H' | [H' | H']]; lia.
  - rewrite (placement_same_row tw th k rows p q Hp Hq Er).
    set (d := (tw + 1) * (k - p_rowLength q) / 2).
    assert (Hlt : p_col p < p_col q ->
                  (p_col p + 1) * (tw + 1) <= p_col q * (tw + 1)) by (intros; nia).
    assert (Hgt : p_col q < p_col p ->
                  (p_col q + 1) * (tw + 1) <= p_col p * (tw + 1)) by (intros; nia).
    split; intros Hf; revert Hf; zbool; intros Hf; try reflexivity;
      try discriminate; exfalso;
      destruct (Z.lt_total (p_col p) (p_col q)) as [H' | [H' | H']]; lia.
Qed.

Lemma placements_all_apart :
  ForallOrdPairs (apart dims) (placements rows dims k).
Proof.
  apply NoDup_ForallOrdPairs; [apply placements_NoDup|].
  intros p q Hp Hq Hne. now apply placements_apart.
Qed.

End Geometry.


(** ** A run that returns *)

Section Returns.

Variables (tw th k : Z) (color : Pixel).
Local Abbreviation dims := (tw, th).
Variables (fuel : nat) (tiles : list Image) (rows : list (list Image)).
Hypothesis Hk : 1 <= k.
Hypothesis Htw : 0 <= tw.
Hypothesis Hth : 0 <= th.
Hypothesis Hrows : split_rows fuel tiles k [] = Some rows.

(** The canvas of line 46 is allocated when it is no wider than Pillow's
    longest line and no higher than a C [int]. *)
Lemma canvas_allocated :
  fst (canvas_size dims k (len rows)) <= MAX_XSIZE ->
  snd (canvas_size dims k (len rows)) <= INT_MAX ->
  new RGBA (canvas_size dims k (len rows)) background
  = Ok (mkImage RGBA (canvas_size dims k (len rows)) (fun _ _ => background)) /\
  size (mkImage RGBA (canvas_size dims k (len rows)) (fun _ _ => background))
  = canvas_size dims k (len rows).
Proof.
  unfold canvas_size, new, is_int, MAX_XSIZE, INT_MAX, INT_MIN. cbn [fst snd].
  intros Hw Hh. pose proof (len_nonneg rows) as Hn.
  assert (H1 : 0 <= 1 + (tw + 1) * k) by nia.
  assert (H2 : 0 <= len rows * (th + 1) + 1) by nia.
  split.
  - zbool; try reflexivity; lia.
  - apply size_mkImage; unfold INT_MAX; lia.
Qed.

(** The paste box of every placement is made of C [int]s then. *)
Lemma placement_int_box p :
  fst (canvas_size dims k (len rows)) <= MAX_XSIZE ->
  snd (canvas_size dims k (len rows)) <= INT_MAX ->
  In p (placements rows dims k) ->
  int_box (paste_box dims (p_x p) (p_y p)) = true.
Proof.
  intros Hw Hh Hp. unfold paste_box. cbn [fst snd].
  destruct (placement_geometry tw th k fuel tiles rows Hk Htw Hrows p Hp)
    as (Hr & HL & Hc & Hx & Hy).
  assert (Hb1 : in_border dims p (p_x p) (p_y p) = true).
  { unfold in_border. cbn [fst snd]. zbool; try reflexivity; lia. }
  assert (Hb2 : in_border dims p (p_x p + tw) (p_y p + th) = true).
  { unfold in_border. cbn [fst snd]. zbool; try reflexivity; lia. }
  destruct (placement_on_canvas tw th k fuel tiles rows Hk Htw Hth Hrows
              p _ _ Hp Hb1) as [Hx1 Hy1].
  destruct (placement_on_canvas tw th k fuel tiles rows Hk Htw Hth Hrows
              p _ _ Hp Hb2) as [Hx2 Hy2].
  apply int_box_spec. unfold MAX_XSIZE, INT_MAX, INT_MIN in *. lia.
Qed.

(** With tiles of the announced size on a canvas that can be allocated,
    the loops of lines 47-64 run to their end. *)
Lemma arrange_rows_ok :
  Forall (fun t => size t = dims) tiles ->
  fst (canvas_size dims k (len rows)) <= MAX_XSIZE ->
  snd (canvas_size dims k (len rows)) <= INT_MAX ->
  exists img,
    arrange_rows rows dims k color = Ok img /\
    size img = canvas_size dims k (len rows) /\ mode img = RGBA.
Proof.
  intros Hsizes Hw Hh.
  destruct (canvas_allocated Hw Hh) as [Hnew Hsize]. unfold background in *.
  rewrite arrange_rows_placements, Hnew. cbn [Py.bind].
  set (canvas := mkImage RGBA _ _) in *.
  destruct (rows_partition k fuel tiles rows Hk Hrows) as (Hcat & _ & _).
  destruct (for_each_invariant
              (fun s => size s = size canvas /\ mode s = RGBA)
              (fun p : Placement =>
                 size (p_tile p) = dims /\
                 int_box (paste_box dims (p_x p) (p_y p)) = true)
              (fun s p => place_at dims color s (p_x p) (p_y p) (p_tile p))
              (placements rows dims k) canvas) as (img & Hrun & Hsz & Hmd).
  - intros s p [Hs Hm] [Ht Hint].
    destruct (place_at_ok tw th color s (p_x p) (p_y p) (p_tile p))
      as (s' & Hs' & Hsz & Hmd); auto; try lia.
    exists s'. rewrite Hsz. auto.
  - apply Forall_forall. intros p Hp. rewrite list_elem_of_In in Hp. split.
    + assert (Ht : In (p_tile p) (map p_tile (placements rows dims k)))
        by (apply in_map; exact Hp).
      rewrite placements_tiles, Hcat in Ht.
      rewrite Forall_forall in Hsizes. apply Hsizes. now apply list_elem_of_In.
    + now apply placement_int_box.
  - auto.
  - exists img. rewrite Hsz, Hsize. auto.
Qed.

End Returns.

(** ** The grid bitmap *)

(** C1: for [n] tiles of the announced size and [k >= 1] tiles per row the
    partition loop finishes with exactly [ceil(n/k)] consecutive rows of
    1 to [k] tiles (the number [r] of rows is the one with
    [n <= r*k < n + k]), and, when the canvas is one [Image.new] allocates
    (its width at most [MAX_XSIZE], its height at most [INT_MAX]),
    [arrangeRibbons] returns a bitmap of width [1 + (tileWidth+1)*k],
    whatever [n] is, and of height [ceil(n/k)*(tileHeight+1) + 1]. *)
Theorem arrange_grid_size (fuel : nat) (tiles : list Image) (tw th k : Z)
    (color : Pixel) :
  1 <= k -> 0 <= tw -> 0 <= th ->
  Forall (fun t => size t = (tw, th)) tiles ->
  (length tiles < fuel)%nat ->
  1 + (tw + 1) * k <= MAX_XSIZE ->
  ceil_div (len tiles) k * (th + 1) + 1 <= INT_MAX ->
  exists rows img,
    split_rows fuel tiles k [] = Some rows /\
    concat rows = tiles /\
    Forall (fun row => 1 <= len row <= k) rows /\
    len rows = ceil_div (len tiles) k /\
    len tiles <= len rows * k < len tiles + k /\
    arrangeRibbons fuel tiles (tw, th) k color = Some (Ok img) /\
    width img = 1 + (tw + 1) * k /\
    height img = ceil_div (len tiles) k * (th + 1) + 1.
Proof.
  intros Hk Htw Hth Hsizes Hfuel Hwide Hhigh.
  destruct (split_rows_terminates k Hk fuel tiles [] Hfuel) as [rows Hrows].
  destruct (rows_partition k fuel tiles rows Hk Hrows) as (Hcat & Hlen & Hall).
  destruct (arrange_rows_ok tw th k color fuel tiles rows Hk Htw Hth Hrows Hsizes)
    as (img & Himg & Hsz & _).
  { exact Hwide. }
  { cbn [canvas_size fst snd]. rewrite Hlen. exact Hhigh. }
  assert (Hceil : len tiles <= len rows * k < len tiles + k).
  { pose proof (len_nonneg tiles) as Hn.
    destruct (ceil_div_spec (len tiles) k Hk Hn) as [Hc | Hz].
    - rewrite Hlen. lia.
    - rewrite Hlen, Hz, ceil_div_0 by lia. lia. }
  exists rows, img. unfold arrangeRibbons, width, height.
  rewrite Hrows, Himg, Hsz. cbn [canvas_size fst snd]. rewrite <- Hlen. auto 10.
Qed.

Lemma arrange_grid_size_witness :
  exists rows img,
    split_rows 7 Samples.six_ribbons 4 [] = Some rows /\
    concat rows = Samples.six_ribbons /\
    Forall (fun row => 1 <= len row <= 4) rows /\
    len rows = ceil_div (len Samples.six_ribbons) 4 /\
    len Samples.six_ribbons <= len rows * 4 < len Samples.six_ribbons + 4 /\
    arrangeRibbons 7 Samples.six_ribbons (9, 3) 4 Samples.outline = Some (Ok img) /\
    width img = 1 + (9 + 1) * 4 /\
    height img = ceil_div (len Samples.six_ribbons) 4 * (3 + 1) + 1.
Proof.
  apply (arrange_grid_size 7 Samples.six_ribbons 9 3 4 Samples.outline).
  - lia.
  - lia.
  - lia.
  - repeat constructor.
  - cbn. lia.
  - unfold MAX_XSIZE. lia.
  - change (2 * (3 + 1) + 1 <= 2147483647). lia.
Defined.

(** C9: for no tiles at all the loop body never runs, and
    [arrangeRibbons] returns the blank canvas of width
    [1 + (tileWidth+1)*tilesPerRow] and height 1, with no row and no
    placement, as soon as that width is not negative and not above the
    longest line [Image.new] allocates. *)
Theorem arrange_no_tiles (fuel : nat) (tw th k : Z) (color : Pixel) :
  0 <= 1 + (tw + 1) * k <= MAX_XSIZE ->
  split_rows (S fuel) [] k [] = Some [] /\
  placements [] (tw, th) k = [] /\
  arrangeRibbons (S fuel) [] (tw, th) k color =
    Some (Ok (mkImage RGBA (1 + (tw + 1) * k, 1) (fun _ _ => (255, 255, 255, 0)))) /\
  size (mkImage RGBA (1 + (tw + 1) * k, 1) (fun _ _ => (255, 255, 255, 0)))
  = (1 + (tw + 1) * k, 1).
Proof.
  intros Hw. split; [reflexivity|]. split; [reflexivity|]. split.
  - change (arrangeRibbons (S fuel) [] (tw, th) k color)
      with (Some (arrange_rows [] (tw, th) k color)).
    unfold arrange_rows, new, is_int, MAX_XSIZE, INT_MIN, INT_MAX in *.
    cbn [fst snd]. change (len [] * (th + 1) + 1) with 1.
    zbool; try reflexivity; lia.
  - apply size_mkImage; unfold MAX_XSIZE, INT_MAX in *; lia.
Qed.

Lemma arrange_no_tiles_witness :
  split_rows 1 [] 4 [] = Some [] /\
  placements [] (9, 3) 4 = [] /\
  arrangeRibbons 1 [] (9, 3) 4 Samples.outline =
    Some (Ok (mkImage RGBA (1 + (9 + 1) * 4, 1) (fun _ _ => (255, 255, 255, 0)))) /\
  size (mkImage RGBA (1 + (9 + 1) * 4, 1) (fun _ _ => (255, 255, 255, 0)))
  = (1 + (9 + 1) * 4, 1).
Proof.
  apply (arrange_no_tiles 0 9 3 4 Samples.outline). unfold MAX_XSIZE. lia.
Defined.

(** A canvas width that is negative, or above the longest line
    [Image.new] allocates, makes the call of line 46 raise. *)
Lemma arrange_no_tiles_bad_width (fuel : nat) (tw th k : Z) (color : Pixel) :
  1 + (tw + 1) * k < 0 \/ MAX_XSIZE < 1 + (tw + 1) * k ->
  exists e, arrangeRibbons (S fuel) [] (tw, th) k color = Some (Raise e).
Proof.
  intros Hw.
  change (arrangeRibbons (S fuel) [] (tw, th) k color)
    with (Some (arrange_rows [] (tw, th) k color)).
  unfold arrange_rows, new. cbn [fst snd].
  repeat match goal with
         | |- context [if ?b then _ else _] => destruct b eqn:?
         end; cbn [Py.bind]; eauto.
  exfalso. unfold MAX_XSIZE in *.
  repeat match goal with
         | H : (_ || _) = false |- _ => apply orb_false_iff in H as [? ?]
         | H : (_ <? _) = false |- _ => apply Z.ltb_ge in H
         end. lia.
Qed.

(** C5: the vertical origin computed on line 51 is, for all integers,
    the simpler [r*(tileHeight+1) + 1]; every placement of a run has that
    simpler value as its Y origin. *)
Theorem origin_y_is_simple (dims : Z * Z) (rowAmount r : Z) :
  ribbonOriginY dims rowAmount r = simple_origin_y (snd dims) r /\
  forall (rows : list (list Image)) (k : Z) (p : Placement),
    In p (placements rows dims k) ->
    p_y p = simple_origin_y (snd dims) (p_row p).
Proof.
  split.
  - unfold ribbonOriginY, simple_origin_y. lia.
  - intros rows k p Hp. destruct dims as [tw th].
    apply In_placements in Hp as (row & _ & _ & _ & _ & _ & _ & Hy).
    rewrite Hy. unfold ribbonOriginY, simple_origin_y. lia.
Qed.





(** ** The store *)

Section StoreSteps.

Local Open Scope store_scope.

Lemma bind_run {A B} (c : M A) (k : A -> M B) w a w1 :
  c w = (Ok a, w1) -> Store.mbind c k w = k a w1.
Proof. intros H. unfold Store.mbind. now rewrite H. Qed.

Lemma bind_raise {A B} (c : M A) (k : A -> M B) w e w1 :
  c w = (Raise e, w1) -> Store.mbind c k w = (Raise e, w1).
Proof. intros H. unfold Store.mbind. now rewrite H. Qed.

Lemma get_run w l im : heap w !! l = Some im -> get l w = (Ok im, w).
Proof. intros H. unfold get. now rewrite H. Qed.

Lemma lookup_snoc_old (h : list Image) (im : Image) (l : nat) (x : Image) :
  h !! l = Some x -> (h ++ [im]) !! l = Some x.
Proof. intros H. now apply lookup_app_l_Some. Qed.

Lemma lookup_snoc_new (h : list Image) (im : Image) :
  (h ++ [im]) !! length h = Some im.
Proof. now rewrite list_lookup_middle. Qed.

(** The mode guard of lines 83-85 and 87-89. *)
Lemma guard_run msg l im w :
  heap w !! l = Some im ->
  (if negb (mode_eqb (mode im) RGBA)
   then do _ <- print msg; Obj.convert l RGBA
   else Store.ret l) w
  = (Ok (fst (as_RGBA msg l im w)), snd (as_RGBA msg l im w)).
Proof.
  intros H. unfold as_RGBA.
  destruct (mode_eqb (mode im) RGBA); cbn [negb fst snd]; [reflexivity|].
  unfold Store.mbind, print, Obj.convert, Store.mbind, get, alloc.
  cbn [heap stdout]. now rewrite H.
Qed.

Lemma as_RGBA_lookup msg l im w :
  heap w !! l = Some im ->
  heap (snd (as_RGBA msg l im w)) !! fst (as_RGBA msg l im w)
  = Some (convert RGBA im).
Proof.
  intros H. unfold as_RGBA.
  destruct (mode_eqb (mode im) RGBA) eqn:E; cbn [fst snd heap].
  - rewrite convert_same; [exact H | now apply mode_eqb_eq].
  - apply lookup_snoc_new.
Qed.

Lemma as_RGBA_old msg l im w l' x :
  heap w !! l' = Some x ->
  heap (snd (as_RGBA msg l im w)) !! l' = Some x.
Proof.
  intros H. unfold as_RGBA.
  destruct (mode_eqb (mode im) RGBA); cbn [snd heap];
    [exact H | now apply lookup_snoc_old].
Qed.

Lemma warn_run (b : bool) msg w :
  (if b then print msg else Store.ret tt) w = (Ok tt, noted b msg w).
Proof. now destruct b. Qed.

Lemma paste_run self im box w out src out' :
  heap w !! self = Some out -> heap w !! im = Some src ->
  PIL.paste (Nat.eqb self im) out src box = Ok out' ->
  Obj.paste self im box w
  = (Ok tt, mkWorld (<[self := out']> (heap w)) (stdout w)).
Proof.
  intros Hs Hi Hp. unfold Obj.paste.
  rewrite (bind_run _ _ _ _ _ (get_run _ _ _ Hs)).
  rewrite (bind_run _ _ _ _ _ (get_run _ _ _ Hi)).
  unfold Store.mbind, lift. rewrite Hp. reflexivity.
Qed.

(** A paste that raises leaves the store as it was. *)
Lemma paste_run_raise self im box w out src e :
  heap w !! self = Some out -> heap w !! im = Some src ->
  PIL.paste (Nat.eqb self im) out src box = Raise e ->
  Obj.paste self im box w = (Raise e, w).
Proof.
  intros Hs Hi Hp. unfold Obj.paste.
  rewrite (bind_run _ _ _ _ _ (get_run _ _ _ Hs)).
  rewrite (bind_run _ _ _ _ _ (get_run _ _ _ Hi)).
  unfold Store.mbind, lift. rewrite Hp. reflexivity.
Qed.

Lemma Draw_run l m w im blend :
  heap w !! l = Some im -> draw_blend (mode im) m = Ok blend ->
  Obj.Draw l m w = (Ok (Obj.mkDraw l blend), w).
Proof.
  intros Hl Hb. unfold Obj.Draw.
  rewrite (bind_run _ _ _ _ _ (get_run _ _ _ Hl)).
  unfold Store.mbind, lift. now rewrite Hb.
Qed.

Lemma Draw_raise l m w im e :
  heap w !! l = Some im -> draw_blend (mode im) m = Raise e ->
  Obj.Draw l m w = (Raise e, w).
Proof.
  intros Hl Hb. unfold Obj.Draw.
  rewrite (bind_run _ _ _ _ _ (get_run _ _ _ Hl)).
  unfold Store.mbind, lift. now rewrite Hb.
Qed.

Lemma textlength_run d text font w :
  multiline text = false ->
  Obj.textlength d text font w = (getlength font text, w).
Proof. intros H. unfold Obj.textlength. now rewrite H. Qed.

Lemma textlength_ok d text font w q :
  multiline text = false -> getlength font text = Ok q ->
  Obj.textlength d text font w = (Ok q, w).
Proof. intros H Hq. rewrite textlength_run by exact H. now rewrite Hq. Qed.

Lemma textlength_raise d text font w e :
  multiline text = false -> getlength font text = Raise e ->
  Obj.textlength d text font w = (Raise e, w).
Proof. intros H Hq. rewrite textlength_run by exact H. now rewrite Hq. Qed.

Lemma text_run d xy txt fill font w im :
  heap w !! Obj.draw_image d = Some im ->
  Obj.text d xy txt fill font w
  = (Ok tt,
     mkWorld (<[Obj.draw_image d :=
                  draw_text (Obj.draw_blends d) im xy txt fill font]> (heap w))
             (stdout w)).
Proof.
  intros H. unfold Obj.text.
  now rewrite (bind_run _ _ _ _ _ (get_run _ _ _ H)).
Qed.

End StoreSteps.

(** ** [placeRibbonGrid] *)

Section PlaceRibbonGrid.

Variables (w : World) (tShirt ribbons : loc) (canvas overlay : Image).
Hypothesis Hcanvas : heap w !! tShirt = Some canvas.
Hypothesis Hoverlay : heap w !! ribbons = Some overlay.
Variables (origin : Z * Z) (alignTop : bool).

Local Abbreviation w1 := (snd (as_RGBA warn_tshirt_mode tShirt canvas w)).
Local Abbreviation result := (fst (as_RGBA warn_tshirt_mode tShirt canvas w)).
Local Abbreviation w2 := (snd (as_RGBA warn_ribbons_mode ribbons overlay w1)).
Local Abbreviation grid := (fst (as_RGBA warn_ribbons_mode ribbons overlay w1)).
Local Abbreviation w3 := (noted (outside origin canvas) warn_origin w2).

(** Two RGBA images of which the second has the size of the box, and a
    box of C [int]s. *)
Lemma paste_RGBA_ok same :
  int_box (target_box origin alignTop overlay) = true ->
  exists pasted,
    paste_core same (convert RGBA canvas) (convert RGBA overlay)
      (target_box origin alignTop overlay) = Ok pasted /\
    size pasted = size canvas /\ mode pasted = RGBA.
Proof.
  unfold target_box. intros Hint.
  match goal with
  | |- context [paste_core _ _ _ (?x0, ?y0, ?x1, ?y1)] =>
      destruct (paste_core_ok (convert RGBA canvas) (convert RGBA overlay)
                  x0 y0 x1 y1 same Hint) as [pasted Hp]
  end.
  - unfold width. rewrite convert_size. lia.
  - unfold height. rewrite convert_size. lia.
  - exists pasted. split; [exact Hp|].
    apply paste_core_shape in Hp as [-> ->].
    now rewrite convert_size, convert_mode.
Qed.

(** The whole run: the guards, the warning, then one paste into the
    result object; what the paste raises is what the call raises. *)
Lemma placeRibbonGrid_steps :
  placeRibbonGrid tShirt ribbons origin alignTop w
  = match paste_core (Nat.eqb result grid) (convert RGBA canvas)
            (convert RGBA overlay) (target_box origin alignTop overlay) with
    | Ok pasted =>
        (Ok result, mkWorld (<[result := pasted]> (heap w3)) (stdout w3))
    | Raise e => (Raise e, w3)
    end.
Proof.
  assert (H1c : heap w1 !! tShirt = Some canvas) by now apply as_RGBA_old.
  assert (H1o : heap w1 !! ribbons = Some overlay) by now apply as_RGBA_old.
  assert (H2c : heap w2 !! tShirt = Some canvas) by now apply as_RGBA_old.
  assert (H2r : heap w2 !! result = Some (convert RGBA canvas)).
  { apply as_RGBA_old. now apply as_RGBA_lookup. }
  assert (H2g : heap w2 !! grid = Some (convert RGBA overlay))
    by now apply as_RGBA_lookup.
  assert (H3 : heap w3 = heap w2).
  { unfold noted. now destruct (outside origin canvas). }
  assert (Hbox :
    (let o := if negb alignTop
              then (fst origin, snd origin - snd (size (convert RGBA overlay)))
              else origin in
     (fst o, snd o, fst o + fst (size (convert RGBA overlay)),
      snd o + snd (size (convert RGBA overlay))))
    = target_box origin alignTop overlay).
  { unfold target_box, width, height. rewrite convert_size.
    now destruct alignTop. }
  assert (Hpaste : forall same,
    PIL.paste same (convert RGBA canvas) (convert RGBA overlay)
      (target_box origin alignTop overlay)
    = paste_core same (convert RGBA canvas) (convert RGBA overlay)
        (target_box origin alignTop overlay)).
  { intros same. unfold PIL.paste. now rewrite !convert_mode. }
  unfold placeRibbonGrid.
  rewrite (bind_run _ _ _ _ _ (get_run _ _ _ Hcanvas)).
  rewrite (bind_run _ _ _ _ _ (guard_run _ _ _ _ Hcanvas)).
  rewrite (bind_run _ _ _ _ _ (get_run _ _ _ H1o)).
  rewrite (bind_run _ _ _ _ _ (guard_run _ _ _ _ H1o)).
  rewrite (bind_run _ _ _ _ _ (get_run _ _ _ H2c)).
  rewrite (bind_run _ _ _ _ _ (warn_run _ _ _)).
  fold (outside origin canvas).
  rewrite <- H3 in H2r, H2g.
  rewrite (bind_run _ _ _ _ _ (get_run _ _ _ H2g)).
  cbv zeta in Hbox. cbv zeta. rewrite Hbox.
  destruct (paste_core (Nat.eqb result grid) (convert RGBA canvas)
              (convert RGBA overlay) (target_box origin alignTop overlay))
    as [pasted|e] eqn:Hcore.
  - erewrite (bind_run (Obj.paste _ _ _)).
    2:{ eapply paste_run; [exact H2r | exact H2g |].
        rewrite Hpaste. exact Hcore. }
    reflexivity.
  - erewrite (bind_raise (Obj.paste _ _ _)).
    2:{ eapply paste_run_raise; [exact H2r | exact H2g |].
        rewrite Hpaste. exact Hcore. }
    reflexivity.
Qed.

(** With a box of C [int]s the paste is made and the call returns. *)
Lemma placeRibbonGrid_run :
  int_box (target_box origin alignTop overlay) = true ->
  exists pasted,
    paste_core (Nat.eqb result grid) (convert RGBA canvas) (convert RGBA overlay)
      (target_box origin alignTop overlay) = Ok pasted /\
    size pasted = size canvas /\ mode pasted = RGBA /\
    placeRibbonGrid tShirt ribbons origin alignTop w
    = (Ok result, mkWorld (<[result := pasted]> (heap w3)) (stdout w3)).
Proof.
  intros Hint.
  destruct (paste_RGBA_ok (Nat.eqb result grid) Hint)
    as (pasted & Hcore & Hsize & Hmode).
  exists pasted. split; [exact Hcore|]. split; [exact Hsize|].
  split; [exact Hmode|].
  rewrite placeRibbonGrid_steps. now rewrite Hcore.
Qed.

(** With a box that leaves the range of a C [int] the call raises, after
    the guards have run. *)
Lemma placeRibbonGrid_overflow :
  int_box (target_box origin alignTop overlay) = false ->
  placeRibbonGrid tShirt ribbons origin alignTop w
  = (Raise OverflowError, w3).
Proof.
  intros Hint. rewrite placeRibbonGrid_steps. unfold target_box in *.
  now rewrite paste_core_overflow.
Qed.

(** The result object is the canvas itself exactly when the canvas is
    RGBA; otherwise it is a new object. *)
Lemma result_loc :
  result = if mode_eqb (mode canvas) RGBA then tShirt else length (heap w).
Proof. unfold as_RGBA. now destruct (mode_eqb (mode canvas) RGBA). Qed.

Lemma result_valid : (result < length (heap w3))%nat.
Proof.
  assert (H2r : heap w2 !! result = Some (convert RGBA canvas)).
  { apply as_RGBA_old. now apply as_RGBA_lookup. }
  apply lookup_lt_Some in H2r.
  unfold noted. now destruct (outside origin canvas).
Qed.

(** Canvas and grid are one object at the paste only if they were one
    RGBA object to begin with. *)
Lemma result_is_grid :
  Nat.eqb result grid = true ->
  tShirt = ribbons /\ mode canvas = RGBA.
Proof.
  intros E. apply Nat.eqb_eq in E. revert E.
  pose proof (lookup_lt_Some _ _ _ Hcanvas) as Hc.
  pose proof (lookup_lt_Some _ _ _ Hoverlay) as Ho.
  unfold as_RGBA.
  destruct (mode_eqb (mode canvas) RGBA) eqn:Ec,
           (mode_eqb (mode overlay) RGBA) eqn:Eo;
    cbn [fst snd heap]; rewrite ?length_app; cbn [length]; intros E;
    try lia.
  split; [exact E | now apply mode_eqb_eq].
Qed.

(** Objects that were in the store and are not the result are left as
    they were. *)
Lemma other_objects l im :
  l <> result -> (l < length (heap w))%nat ->
  (<[result := im]> (heap w3)) !! l = heap w !! l.
Proof.
  intros Hne Hl. rewrite list_lookup_insert_ne by auto.
  destruct (lookup_lt_is_Some_2 _ _ Hl) as [x Hx].
  transitivity (Some x); [|symmetry; exact Hx].
  assert (heap w2 !! l = Some x) by (do 2 apply as_RGBA_old; exact Hx).
  unfold noted. now destruct (outside origin canvas).
Qed.

End PlaceRibbonGrid.

Lemma heap_noted b msg w : heap (noted b msg w) = heap w.
Proof. now destruct b. Qed.

(** C4, as the code has it: when the four coordinates of the box of the
    overlay are C [int]s, [placeRibbonGrid] returns.  An RGBA canvas is
    mutated in place and is the object returned; a canvas of another mode
    is left untouched, and a new object, its RGBA conversion, is pasted
    into and returned.  No other object of the store changes.
    The returned bitmap is RGBA, has the size of the canvas, agrees with
    the (converted) canvas outside the box of the overlay, and, when
    canvas and overlay are two objects, shows the (converted) overlay
    inside the box. *)
Theorem placeRibbonGrid_frame (w : World) (tShirt ribbons : loc)
    (canvas overlay : Image) (origin : Z * Z) (alignTop : bool) :
  heap w !! tShirt = Some canvas ->
  heap w !! ribbons = Some overlay ->
  int_box (target_box origin alignTop overlay) = true ->
  exists result w' out,
    placeRibbonGrid tShirt ribbons origin alignTop w = (Ok result, w') /\
    heap w' !! result = Some out /\
    (mode canvas = RGBA -> result = tShirt) /\
    (mode canvas <> RGBA ->
       result = length (heap w) /\ heap w' !! tShirt = Some canvas) /\
    (forall l, l <> result -> (l < length (heap w))%nat ->
       heap w' !! l = heap w !! l) /\
    mode out = RGBA /\ size out = size canvas /\
    (forall x y,
       ~ in_box (target_box origin alignTop overlay) x y ->
       getpixel out x y = getpixel (convert RGBA canvas) x y) /\
    (tShirt <> ribbons ->
     forall x y,
       in_box (target_box origin alignTop overlay) x y ->
       in_image canvas x y = true ->
       getpixel out x y =
       getpixel (convert RGBA overlay)
         (x - fst origin)
         (y - (if alignTop then snd origin else snd origin - height overlay))).
Proof.
  intros Hc Ho Hint.
  destruct (placeRibbonGrid_run w tShirt ribbons canvas overlay Hc Ho origin
              alignTop Hint)
    as (pasted & Hcore & Hsize & Hmode & Hrun).
  pose proof (result_loc w tShirt canvas) as Hloc.
  pose proof (result_valid w tShirt ribbons canvas overlay Hc origin) as Hvalid.
  pose proof (lookup_lt_Some _ _ _ Hc) as Hlt.
  eexists _, _, pasted. split; [exact Hrun|]. cbn [heap].
  split; [now apply list_lookup_insert_eq|].
  split; [|split; [|split; [|split; [|split; [|split]]]]].
  - intros Hm. rewrite Hloc. apply mode_eqb_eq in Hm. now rewrite Hm.
  - intros Hm. assert (E : mode_eqb (mode canvas) RGBA = false).
    { destruct (mode_eqb (mode canvas) RGBA) eqn:E; [|reflexivity].
      apply mode_eqb_eq in E. contradiction. }
    split; [now rewrite Hloc, E|].
    rewrite (other_objects w tShirt ribbons canvas overlay origin tShirt pasted);
      [exact Hc | rewrite Hloc, E; lia | exact Hlt].
  - intros l Hne Hl. now apply other_objects.
  - exact Hmode.
  - exact Hsize.
  - intros x y Hout. eapply paste_core_frame; [exact Hcore|].
    unfold target_box, in_box in *. exact Hout.
  - intros Hne x y Hin Himg.
    match type of Hcore with
    | paste_core ?b _ _ _ = _ => destruct b eqn:E
    end.
    { apply result_is_grid in E as [E _]; [contradiction | assumption..]. }
    unfold target_box, in_box in *. cbn [fst snd] in *.
    eapply (paste_core_inside _ _ _ _ _ _ _ Hcore); try tauto.
    unfold in_image, width, height in *. now rewrite convert_size.
Qed.

Lemma placeRibbonGrid_frame_witness :
  exists result w' out,
    placeRibbonGrid 0%nat 1%nat (1, 1) true Scenes.rgba_world = (Ok result, w') /\
    heap w' !! result = Some out /\
    (mode Scenes.rgba_canvas = RGBA -> result = 0%nat) /\
    (mode Scenes.rgba_canvas <> RGBA ->
       result = length (heap Scenes.rgba_world) /\
       heap w' !! 0%nat = Some Scenes.rgba_canvas) /\
    (forall l, l <> result -> (l < length (heap Scenes.rgba_world))%nat ->
       heap w' !! l = heap Scenes.rgba_world !! l) /\
    mode out = RGBA /\ size out = size Scenes.rgba_canvas /\
    (forall x y,
       ~ in_box (target_box (1, 1) true Scenes.rgba_patch) x y ->
       getpixel out x y = getpixel (convert RGBA Scenes.rgba_canvas) x y) /\
    (0%nat <> 1%nat ->
     forall x y,
       in_box (target_box (1, 1) true Scenes.rgba_patch) x y ->
       in_image Scenes.rgba_canvas x y = true ->
       getpixel out x y =
       getpixel (convert RGBA Scenes.rgba_patch)
         (x - fst (1, 1))
         (y - (if true then snd (1, 1) else snd (1, 1) - height Scenes.rgba_patch))).
Proof.
  apply (placeRibbonGrid_frame Scenes.rgba_world 0%nat 1%nat
           Scenes.rgba_canvas Scenes.rgba_patch (1, 1) true).
  - reflexivity.
  - reflexivity.
  - reflexivity.
Defined.

(** C4 as stated fails: an RGB canvas is not the object returned, and it
    is not mutated, although the overlay lies on it; and an anchor so far
    to the right that the right edge of the box is no C [int] makes the
    call raise, on an RGBA canvas too. *)
Lemma placeRibbonGrid_copy_counterexample :
  fst (placeRibbonGrid 0%nat 1%nat (0, 0) true Scenes.rgb_world) = Ok 2%nat /\
  fst (placeRibbonGrid 0%nat 1%nat (0, 0) true Scenes.rgb_world) <> Ok 0%nat /\
  heap (snd (placeRibbonGrid 0%nat 1%nat (0, 0) true Scenes.rgb_world)) !! 0%nat
    = Some Scenes.rgb_canvas /\
  option_map (fun im => (mode im, getpixel im 0 0))
    (heap (snd (placeRibbonGrid 0%nat 1%nat (0, 0) true Scenes.rgb_world)) !! 2%nat)
    = Some (RGBA, (9, 0, 0, 128)) /\
  fst (placeRibbonGrid 0%nat 1%nat (2147483646, 0) true Scenes.rgba_world)
    = Raise OverflowError.
Proof.
  split; [reflexivity|]. split; [discriminate|]. repeat split; reflexivity.
Qed.

(** An anchor so far to the right that the right edge of the box is no
    C [int]: the call raises, and the canvas is as it was. *)
Lemma placeRibbonGrid_far_anchor :
  placeRibbonGrid 0%nat 1%nat (INT_MAX - 1, 0) true Scenes.rgba_world
  = (Raise OverflowError,
     mkWorld (heap Scenes.rgba_world) [warn_origin]).
Proof. reflexivity. Qed.

(** C6: bottom alignment at [(x, y)] and top alignment at
    [(x, y - overlay.height)] have the same outcome, the same object
    returned or the same exception raised, and leave the same store of
    images behind; with a box of C [int]s the outcome is an object
    returned. *)
Theorem placeRibbonGrid_align (w : World) (tShirt ribbons : loc)
    (canvas overlay : Image) (x y : Z) :
  heap w !! tShirt = Some canvas ->
  heap w !! ribbons = Some overlay ->
  let bottom := placeRibbonGrid tShirt ribbons (x, y) false w in
  let top := placeRibbonGrid tShirt ribbons (x, y - height overlay) true w in
  fst bottom = fst top /\
  heap (snd bottom) = heap (snd top) /\
  (int_box (target_box (x, y) false overlay) = true ->
   exists result, fst bottom = Ok result).
Proof.
  intros Hc Ho. cbv zeta.
  rewrite (placeRibbonGrid_steps w tShirt ribbons canvas overlay Hc Ho (x, y) false).
  rewrite (placeRibbonGrid_steps w tShirt ribbons canvas overlay Hc Ho
             (x, y - height overlay) true).
  assert (Hbox : target_box (x, y - height overlay) true overlay
                 = target_box (x, y) false overlay) by reflexivity.
  rewrite Hbox.
  split; [|split].
  - destruct (paste_core _ _ _ (target_box (x, y) false overlay));
      reflexivity.
  - destruct (paste_core _ _ _ (target_box (x, y) false overlay));
      cbn [snd heap]; now rewrite !heap_noted.
  - intros Hint.
    destruct (paste_RGBA_ok canvas overlay (x, y) false
                (Nat.eqb (fst (as_RGBA warn_tshirt_mode tShirt canvas w))
                   (fst (as_RGBA warn_ribbons_mode ribbons overlay
                           (snd (as_RGBA warn_tshirt_mode tShirt canvas w)))))
                Hint) as (pasted & Hcore & _).
    rewrite Hcore. cbn [fst]. eauto.
Qed.

Lemma placeRibbonGrid_align_witness :
  let bottom := placeRibbonGrid 0%nat 1%nat (1, 3) false Scenes.rgba_world in
  let top := placeRibbonGrid 0%nat 1%nat (1, 3 - height Scenes.rgba_patch) true
               Scenes.rgba_world in
  fst bottom = fst top /\
  heap (snd bottom) = heap (snd top) /\
  (int_box (target_box (1, 3) false Scenes.rgba_patch) = true ->
   exists result, fst bottom = Ok result).
Proof.
  apply (placeRibbonGrid_align Scenes.rgba_world 0%nat 1%nat
           Scenes.rgba_canvas Scenes.rgba_patch 1 3).
  - reflexivity.
  - reflexivity.
Defined.



(** ** [makeNametape] *)

Lemma stdout_noted b msg w :
  stdout (noted b msg w) = stdout w ++ (if b then [msg] else []).
Proof. destruct b; cbn; [reflexivity | now rewrite app_nil_r]. Qed.

Section MakeNametape.

Variables (w : World) (template : loc) (im : Image).
Hypothesis Htemplate : heap w !! template = Some im.
Variables (text : string) (font : ImageFont) (color : Pixel) (measured : Q).

Local Abbreviation textLength := (int_of_float measured).
Local Abbreviation origin := (fst (size im) / 2 - textLength / 2, 1).

(** An RGBA template and a text the font measures: no conversion, a
    drawing context that replaces. *)
Lemma makeNametape_RGBA :
  mode im = RGBA -> multiline text = false ->
  getlength font text = Ok measured ->
  makeNametape template text font color w
  = (Ok template,
     mkWorld (<[template := draw_text false im origin text color font]> (heap w))
             (stdout w ++ (if fst (size im) <? textLength
                           then [warn_text_long] else []))).
Proof.
  intros Hmode Hline Hfont. unfold makeNametape.
  rewrite (bind_run _ _ _ _ _ (get_run _ _ _ Htemplate)).
  rewrite Hmode. cbn [mode_eqb negb].
  rewrite (bind_run (Store.ret tt) _ w tt w eq_refl).
  rewrite (bind_run _ _ _ _ _ (Draw_run template (Some RGBA) w im false Htemplate
                                 ltac:(now rewrite Hmode))).
  rewrite (bind_run _ _ _ _ _ (textlength_ok _ _ _ _ _ Hline Hfont)).
  rewrite (bind_run _ _ _ _ _ (get_run _ _ _ Htemplate)).
  rewrite (bind_run _ _ _ _ _ (warn_run _ _ _)).
  erewrite (bind_run (Obj.text _ _ _ _ _)).
  2:{ apply text_run. cbn [Obj.draw_image]. rewrite heap_noted. exact Htemplate. }
  unfold Store.ret. cbn [Obj.draw_image Obj.draw_blends].
  now rewrite heap_noted, stdout_noted.
Qed.

(** An RGB template: the conversion is made and dropped; the text is
    drawn into the template itself, which stays RGB. *)
Lemma makeNametape_RGB :
  mode im = RGB -> multiline text = false ->
  getlength font text = Ok measured ->
  makeNametape template text font color w
  = (Ok template,
     mkWorld (<[template := draw_text true im origin text color font]>
                (heap w ++ [convert RGBA im]))
             ((stdout w ++ [warn_template_mode])
              ++ (if fst (size im) <? textLength
                  then [warn_text_long] else []))).
Proof.
  intros Hmode Hline Hfont. unfold makeNametape.
  rewrite (bind_run _ _ _ _ _ (get_run _ _ _ Htemplate)).
  rewrite Hmode. cbn [mode_eqb negb].
  set (w1 := mkWorld (heap w ++ [convert RGBA im]) (stdout w ++ [warn_template_mode])).
  assert (H1 : heap w1 !! template = Some im) by now apply lookup_snoc_old.
  rewrite (bind_run _ _ _ tt w1).
  2:{ unfold Store.mbind, print, Obj.convert, Store.mbind, get, alloc, Store.ret.
      cbn [heap stdout]. now rewrite Htemplate. }
  rewrite (bind_run _ _ _ _ _ (Draw_run template (Some RGBA) w1 im true H1
                                 ltac:(now rewrite Hmode))).
  rewrite (bind_run _ _ _ _ _ (textlength_ok _ _ _ _ _ Hline Hfont)).
  rewrite (bind_run _ _ _ _ _ (get_run _ _ _ H1)).
  rewrite (bind_run _ _ _ _ _ (warn_run _ _ _)).
  erewrite (bind_run (Obj.text _ _ _ _ _)).
  2:{ apply text_run. cbn [Obj.draw_image]. rewrite heap_noted. exact H1. }
  unfold Store.ret. cbn [Obj.draw_image Obj.draw_blends].
  now rewrite heap_noted, stdout_noted.
Qed.

(** Any other template: the drawing context is refused. *)
Lemma makeNametape_mode_mismatch :
  mode im = L \/ mode im = LA ->
  fst (makeNametape template text font color w)
  = Raise (ValueError "mode mismatch").
Proof.
  intros Hmode. unfold makeNametape.
  rewrite (bind_run _ _ _ _ _ (get_run _ _ _ Htemplate)).
  set (w1 := mkWorld (heap w ++ [convert RGBA im]) (stdout w ++ [warn_template_mode])).
  assert (H1 : heap w1 !! template = Some im) by now apply lookup_snoc_old.
  rewrite (bind_run _ _ _ tt w1).
  2:{ destruct Hmode as [-> | ->]; cbn [mode_eqb negb];
      unfold Store.mbind, print, Obj.convert, Store.mbind, get, alloc, Store.ret;
      cbn [heap stdout]; now rewrite Htemplate. }
  rewrite (bind_raise _ _ _ (ValueError "mode mismatch") w1); [reflexivity|].
  apply (Draw_raise _ _ _ im); [exact H1|].
  destruct Hmode as [-> | ->]; reflexivity.
Qed.

(** More than one line of text cannot be measured. *)
Lemma makeNametape_multiline :
  mode im = RGBA -> multiline text = true ->
  fst (makeNametape template text font color w)
  = Raise (ValueError "can't measure length of multiline text").
Proof.
  intros Hmode Hline. unfold makeNametape.
  rewrite (bind_run _ _ _ _ _ (get_run _ _ _ Htemplate)).
  rewrite Hmode. cbn [mode_eqb negb].
  rewrite (bind_run (Store.ret tt) _ w tt w eq_refl).
  rewrite (bind_run _ _ _ _ _ (Draw_run template (Some RGBA) w im false Htemplate
                                 ltac:(now rewrite Hmode))).
  unfold Obj.textlength. rewrite Hline. reflexivity.
Qed.

(** What the font raises when it measures the text, the call raises. *)
Lemma makeNametape_font_raises e :
  mode im = RGBA \/ mode im = RGB -> multiline text = false ->
  getlength font text = Raise e ->
  fst (makeNametape template text font color w) = Raise e.
Proof.
  intros Hmode Hline Hfont. unfold makeNametape.
  rewrite (bind_run _ _ _ _ _ (get_run _ _ _ Htemplate)).
  destruct Hmode as [Hmode | Hmode]; rewrite Hmode; cbn [mode_eqb negb].
  - rewrite (bind_run (Store.ret tt) _ w tt w eq_refl).
    rewrite (bind_run _ _ _ _ _ (Draw_run template (Some RGBA) w im false
                                   Htemplate ltac:(now rewrite Hmode))).
    now rewrite (bind_raise _ _ _ _ _ (textlength_raise _ _ _ _ _ Hline Hfont)).
  - set (w1 := mkWorld (heap w ++ [convert RGBA im])
                 (stdout w ++ [warn_template_mode])).
    assert (H1 : heap w1 !! template = Some im) by now apply lookup_snoc_old.
    rewrite (bind_run _ _ _ tt w1).
    2:{ unfold Store.mbind, print, Obj.convert, Store.mbind, get, alloc, Store.ret.
        cbn [heap stdout]. now rewrite Htemplate. }
    rewrite (bind_run _ _ _ _ _ (Draw_run template (Some RGBA) w1 im true H1
                                   ltac:(now rewrite Hmode))).
    now rewrite (bind_raise _ _ _ _ _ (textlength_raise _ _ _ _ _ Hline Hfont)).
Qed.

End MakeNametape.

(** C8, as the code has it: on an RGBA template, for one line of text
    that the font measures (its [getlength] returns, which a bitmap font
    does not do for a character outside Latin-1), [makeNametape] returns
    the template object itself, with the text drawn at
    [(template.width//2 - textWidth//2, 1)], where [textWidth] is the
    measured length truncated to an integer; and it prints the overflow
    warning exactly when [textWidth] exceeds the width of the template. *)
Theorem makeNametape_overflow_warning (w : World) (template : loc) (im : Image)
    (text : string) (font : ImageFont) (color : Pixel) (measured : Q) :
  heap w !! template = Some im ->
  mode im = RGBA ->
  multiline text = false ->
  getlength font text = Ok measured ->
  exists w',
    makeNametape template text font color w = (Ok template, w') /\
    heap w' =
      <[template :=
          draw_text false im
            (width im / 2 - int_of_float measured / 2, 1)
            text color font]> (heap w) /\
    (width im < int_of_float measured /\
       stdout w' = stdout w ++ [warn_text_long]
     \/
     int_of_float measured <= width im /\ stdout w' = stdout w).
Proof.
  intros Hl Hmode Hline Hfont. eexists. split.
  - apply makeNametape_RGBA; eassumption.
  - cbn [heap stdout]. split; [reflexivity|]. unfold width.
    destruct (Z.ltb_spec (fst (size im)) (int_of_float measured));
      [left | right]; split; auto using app_nil_r.
Qed.

Lemma makeNametape_overflow_warning_witness :
  exists w',
    makeNametape 0%nat Nametapes.long_name Nametapes.block_font Nametapes.white
      (Nametapes.world RGBA) = (Ok 0%nat, w') /\
    heap w' =
      <[0%nat :=
          draw_text false (Nametapes.template RGBA)
            (width (Nametapes.template RGBA) / 2
             - int_of_float (inject_Z 60) / 2, 1)
            Nametapes.long_name Nametapes.white Nametapes.block_font]>
        (heap (Nametapes.world RGBA)) /\
    (width (Nametapes.template RGBA) < int_of_float (inject_Z 60) /\
       stdout w' = stdout (Nametapes.world RGBA) ++ [warn_text_long]
     \/
     int_of_float (inject_Z 60) <= width (Nametapes.template RGBA) /\
     stdout w' = stdout (Nametapes.world RGBA)).
Proof.
  apply (makeNametape_overflow_warning (Nametapes.world RGBA) 0%nat
           (Nametapes.template RGBA)).
  - reflexivity.
  - reflexivity.
  - reflexivity.
  - reflexivity.
Defined.

(** The template of width 50 with a text of 60 pixels: the warning is
    printed and the template comes back. *)
Example makeNametape_sixty_on_fifty :
  fst (makeNametape 0%nat Nametapes.long_name Nametapes.block_font Nametapes.white
         (Nametapes.world RGBA)) = Ok 0%nat /\
  stdout (snd (makeNametape 0%nat Nametapes.long_name Nametapes.block_font
                 Nametapes.white (Nametapes.world RGBA))) = [warn_text_long].
Proof. split; reflexivity. Qed.

(** C8 as stated fails: a text of two lines on an RGBA template raises,
    and so does any text on a greyscale template, and so does a capital
    omega measured by a bitmap font, which encodes its text as Latin-1;
    and a text measured at 50.5 pixels is wider than a template of 50, yet
    no warning is printed, because line 120 truncates the measure before
    line 122 compares it. *)
Lemma makeNametape_raises_counterexample :
  fst (makeNametape 0%nat Nametapes.two_lines Nametapes.block_font Nametapes.white
         (Nametapes.world RGBA))
    = Raise (ValueError "can't measure length of multiline text") /\
  fst (makeNametape 0%nat Nametapes.long_name Nametapes.block_font Nametapes.white
         (Nametapes.world L))
    = Raise (ValueError "mode mismatch") /\
  fst (makeNametape 0%nat Nametapes.omega Nametapes.block_font Nametapes.white
         (Nametapes.world RGBA))
    = Raise UnicodeEncodeError /\
  (getlength Nametapes.fine_font Nametapes.long_name = Ok (101 # 2) /\
   (inject_Z (width (Nametapes.template RGBA)) < 101 # 2)%Q /\
   makeNametape 0%nat Nametapes.long_name Nametapes.fine_font Nametapes.white
     (Nametapes.world RGBA)
   = (Ok 0%nat,
      mkWorld [draw_text false (Nametapes.template RGBA) (0, 1)
                 Nametapes.long_name Nametapes.white Nametapes.fine_font]
              [])).
Proof.
  split; [reflexivity|]. split; [reflexivity|]. split; [reflexivity|].
  split; [reflexivity|]. split; [|reflexivity].
  change (50 * 2 < 101 * 1). lia.
Qed.

(** C3 fails on [makeNametape]: for an RGB template the warning that the
    output was converted to RGBA is printed, the converted copy is left
    aside as a new object, and the template that comes back is still RGB;
    for a greyscale template the call raises. *)
Theorem makeNametape_returns_unconverted :
  let run := makeNametape 0%nat Nametapes.long_name Nametapes.block_font
               Nametapes.white (Nametapes.world RGB) in
  fst run = Ok 0%nat /\
  option_map mode (heap (snd run) !! 0%nat) = Some RGB /\
  option_map mode (heap (snd run) !! 1%nat) = Some RGBA /\
  stdout (snd run) = [warn_template_mode; warn_text_long] /\
  fst (makeNametape 0%nat Nametapes.long_name Nametapes.block_font
         Nametapes.white (Nametapes.world L))
    = Raise (ValueError "mode mismatch").
Proof. cbv zeta. repeat split; reflexivity. Qed.

(** The other two operations do return RGBA bitmaps: [placeRibbonGrid] as
    shown with its frame property above, and [arrangeRibbons] whenever it
    returns at all. *)
Lemma arrangeRibbons_RGBA (fuel : nat) (tiles : list Image) (tw th k : Z)
    (color : Pixel) (img : Image) :
  arrangeRibbons fuel tiles (tw, th) k color = Some (Ok img) -> mode img = RGBA.
Proof.
  unfold arrangeRibbons. destruct (split_rows fuel tiles k []) as [rows|];
    [|discriminate].
  intros [= Hrun]. revert Hrun. unfold arrange_rows, new.
  repeat match goal with
         | |- context [if ?b then Raise _ else _] =>
             destruct b; cbn [Py.bind]; [discriminate|]
         end.
  set (canvas := mkImage RGBA _ _).
  assert (Hc : mode canvas = RGBA) by reflexivity. clearbody canvas.
  generalize (len rows) as n. intros n. revert canvas Hc.
  generalize (enumerate rows) as es.
  induction es as [|[r row] es IH]; intros canvas Hc; cbn [for_each].
  - now intros [= <-].
  - destruct (place_row (tw, th) k color n canvas (r, row)) as [canvas'|e] eqn:E;
      cbn [Py.bind]; [|discriminate].
    apply IH. revert E. unfold place_row.
    generalize (len row) as rowLength. intros rowLength. revert canvas Hc.
    generalize (enumerate row) as ts.
    induction ts as [|[c t] ts IHt]; intros canvas Hc; cbn [for_each].
    + now intros [= <-].
    + destruct (place_ribbon (tw, th) k color n r rowLength canvas (c, t))
        as [canvas''|e] eqn:E'; cbn [Py.bind]; [|discriminate].
      apply IHt. revert E'. unfold place_ribbon, place_at.
      destruct (rectangle canvas _ color) as [drawn|e] eqn:Er;
        cbn [Py.bind]; [|discriminate].
      assert (Hd : mode drawn = RGBA).
      { revert Er. unfold rectangle, border_box.
        repeat match goal with |- context [if ?b then _ else _] => destruct b end;
          try discriminate.
        now intros [= <-]. }
      unfold PIL.paste. rewrite Hd, convert_mode. cbn [mode_eqb paste_box].
      intros Hp. apply paste_core_shape in Hp as [_ ->]. exact Hd.
Qed.

(** * Further properties *)

(** ** Runs of [arrangeRibbons] that give no bitmap *)

(** X1: with [ribbonsPerRow <= 0] and at least one tile the loop of lines
    41-43 never ends: whatever the number of iterations allowed,
    [arrangeRibbons] has not returned. *)
Theorem arrange_never_returns (fuel : nat) (tiles : list Image) (dims : Z * Z)
    (k : Z) (color : Pixel) :
  k <= 0 -> tiles <> [] ->
  arrangeRibbons fuel tiles dims k color = None.
Proof.
  intros Hk Hne. unfold arrangeRibbons.
  now rewrite (split_rows_diverges k Hk fuel tiles [] Hne).
Qed.

Lemma arrange_never_returns_witness :
  arrangeRibbons 1000 Samples.six_ribbons (9, 3) 0 Samples.outline = None.
Proof.
  apply (arrange_never_returns 1000 Samples.six_ribbons (9, 3) 0 Samples.outline).
  - lia.
  - discriminate.
Defined.

Section Raising.

Context {A S : Type}.
Variables (inv : S -> Prop) (ok : A -> bool) (body : S -> A -> result S).
Hypothesis body_inv :
  forall s x s', inv s -> body s x = Ok s' -> inv s'.
Hypothesis body_raise :
  forall s x, inv s -> ok x = false -> exists e, body s x = Raise e.

(** A loop raises as soon as one element makes the body raise, if not
    before. *)
Lemma for_each_raises (xs : list A) : forall s,
  inv s -> existsb (fun x => negb (ok x)) xs = true ->
  exists e, for_each body xs s = Raise e.
Proof.
  induction xs as [|x xs IH]; intros s Hs Hex; cbn [existsb] in Hex;
    [discriminate|].
  cbn [for_each]. destruct (body s x) as [s'|e] eqn:Hb; cbn [Py.bind];
    [|eauto].
  destruct (ok x) eqn:Hx.
  - apply IH; [exact (body_inv s x s' Hs Hb) | exact Hex].
  - destruct (body_raise s x Hs Hx) as (e & He). congruence.
Qed.

End Raising.

(** X2: a tile whose size is not [ribbonDimensions] makes the paste of
    line 64 raise: [arrangeRibbons] returns no bitmap but an exception. *)
Theorem arrange_raises_on_odd_tile (fuel : nat) (tiles : list Image)
    (tw th k : Z) (color : Pixel) (t : Image) :
  1 <= k -> 0 <= tw -> 0 <= th ->
  In t tiles -> size t <> (tw, th) ->
  (length tiles < fuel)%nat ->
  exists e, arrangeRibbons fuel tiles (tw, th) k color = Some (Raise e).
Proof.
  intros Hk Htw Hth Hin Hsize Hfuel.
  destruct (split_rows_terminates k Hk fuel tiles [] Hfuel) as [rows Hrows].
  destruct (rows_partition k fuel tiles rows Hk Hrows) as (Hcat & Hlen & Hall).
  unfold arrangeRibbons. rewrite Hrows, arrange_rows_placements.
  destruct (new RGBA (canvas_size (tw, th) k (len rows)) (255, 255, 255, 0))
    as [canvas|e] eqn:Hnew; cbn [Py.bind]; [|eauto].
  assert (Hcanvas : mode canvas = RGBA).
  { revert Hnew. unfold new.
    repeat match goal with
           | |- context [if ?b then Raise _ else _] =>
               destruct b; [discriminate|]
           end.
    now intros [= <-]. }
  set (fits := fun p : Placement =>
                 (fst (size (p_tile p)) =? tw) && (snd (size (p_tile p)) =? th)).
  destruct (for_each_raises
              (fun s : Image => mode s = RGBA) fits
              (fun s p => place_at (tw, th) color s (p_x p) (p_y p) (p_tile p)))
    with (xs := placements rows (tw, th) k) (s := canvas) as [e He];
    [| | | | exists e; now rewrite He].
  - intros s p s' Hs Hp.
    now apply (place_at_shape tw th color s (p_x p) (p_y p) (p_tile p) s' Hs) in Hp.
  - intros s p Hs Hp. apply place_at_mismatch; try lia; try assumption.
    intros Heq. unfold fits in Hp. rewrite Heq in Hp. cbn [fst snd] in Hp.
    now rewrite !Z.eqb_refl in Hp.
  - exact Hcanvas.
  - apply existsb_exists.
    assert (Ht : In t (map p_tile (placements rows (tw, th) k)))
      by now rewrite placements_tiles, Hcat.
    apply in_map_iff in Ht as (p & Hpt & Hp). exists p. split; [exact Hp|].
    unfold fits. rewrite Hpt. destruct (size t) as [w h]. cbn [fst snd].
    destruct (Z.eqb_spec w tw), (Z.eqb_spec h th); cbn; try reflexivity.
    subst. contradiction.
Qed.

Lemma arrange_raises_on_odd_tile_witness :
  exists e,
    arrangeRibbons 3 [Samples.ribbon 10; Scenes.rgba_patch] (9, 3) 4 Samples.outline
    = Some (Raise e).
Proof.
  apply (arrange_raises_on_odd_tile 3 [Samples.ribbon 10; Scenes.rgba_patch]
           9 3 4 Samples.outline Scenes.rgba_patch).
  - lia.
  - lia.
  - lia.
  - right. left. reflexivity.
  - vm_compute. discriminate.
  - cbn. lia.
Defined.

(** ** The pixels of the grid *)

Lemma in_image_same_size (a b : Image) (x y : Z) :
  size a = size b -> in_image a x y = in_image b x y.
Proof. intros H. unfold in_image, width, height. now rewrite H. Qed.

Section PlaceAt.

Variables (tw th : Z) (color : Pixel).
Local Abbreviation dims := (tw, th).

(** One placement, pixel by pixel: the tile on its footprint, the outline
    colour on the frame around it, and the canvas as it was elsewhere. *)
Lemma place_at_pixel img p img' :
  mode img = RGBA ->
  place_at dims color img (p_x p) (p_y p) (p_tile p) = Ok img' ->
  forall x y, in_image img x y = true ->
    getpixel img' x y =
    if in_footprint dims p x y
    then getpixel (convert RGBA (p_tile p)) (x - p_x p) (y - p_y p)
    else if on_border dims p x y then color
    else getpixel img x y.
Proof.
  intros Hmode. unfold place_at.
  destruct (rectangle img _ color) as [drawn|e] eqn:Er; cbn [Py.bind];
    [|discriminate].
  assert (Hd : drawn = with_pixels img (fun x y =>
            if on_outline (border_box dims (p_x p) (p_y p)) x y
            then color else getpixel img x y)).
  { revert Er. unfold rectangle, border_box.
    repeat match goal with |- context [if ?b then _ else _] => destruct b end;
      try discriminate.
    now intros [= <-]. }
  unfold PIL.paste. rewrite Hd. cbn [with_pixels mode].
  rewrite Hmode, convert_mode. cbn [mode_eqb]. unfold paste_box. cbn [fst snd].
  intros Hp x y Hin.
  destruct (in_footprint dims p x y) eqn:Ef.
  - unfold in_footprint in Ef. cbn [fst snd] in Ef.
    apply andb_true_iff in Ef as [Ef Hy2]. apply andb_true_iff in Ef as [Ef Hy1].
    apply andb_true_iff in Ef as [Hx1 Hx2].
    apply Z.leb_le in Hx1, Hy1. apply Z.ltb_lt in Hx2, Hy2.
    apply (paste_core_inside _ _ _ _ _ _ _ Hp); try lia. exact Hin.
  - rewrite (paste_core_frame _ _ _ _ _ _ _ _ Hp).
    + reflexivity.
    + intros [Hx Hy]. unfold in_footprint in Ef. cbn [fst snd] in Ef.
      revert Ef. zbool; intros; try discriminate; lia.
Qed.

(** The border rectangle is the frame together with the footprint. *)
Lemma in_border_split p x y :
  0 <= tw -> 0 <= th ->
  in_border dims p x y = in_footprint dims p x y || on_border dims p x y.
Proof.
  intros Htw Hth.
  unfold in_border, in_footprint, on_border, on_outline, border_box.
  cbn [fst snd]. zbool; try reflexivity; lia.
Qed.

Lemma footprint_not_border p x y :
  in_footprint dims p x y = true -> on_border dims p x y = false.
Proof.
  unfold in_footprint, on_border, on_outline, border_box. cbn [fst snd].
  zbool; intros; try reflexivity; try discriminate; lia.
Qed.

Hypothesis Htw : 0 <= tw.
Hypothesis Hth : 0 <= th.

Local Abbreviation place :=
  (fun (s : Image) (p : Placement) =>
     place_at dims color s (p_x p) (p_y p) (p_tile p)).

(** A sequence of placements that keep apart from each other: every tile
    is where it was pasted, every frame has the outline colour, and what
    lies under no border rectangle is untouched. *)
Lemma placements_pixels (ps : list Placement) : forall img0 img,
  mode img0 = RGBA ->
  ForallOrdPairs (apart dims) ps ->
  for_each place ps img0 = Ok img ->
  size img = size img0 /\ mode img = RGBA /\
  forall x y, in_image img0 x y = true ->
    (forall p, In p ps -> in_footprint dims p x y = true ->
       getpixel img x y =
       getpixel (convert RGBA (p_tile p)) (x - p_x p) (y - p_y p)) /\
    (existsb (fun p => on_border dims p x y) ps = true ->
     existsb (fun p => in_footprint dims p x y) ps = false ->
     getpixel img x y = color) /\
    (existsb (fun p => in_border dims p x y) ps = false ->
     getpixel img x y = getpixel img0 x y).
Proof.
  induction ps as [|p ps IH]; intros img0 img Hmode Hapart; cbn [for_each].
  - intros [= <-]. repeat split; auto; try discriminate.
    intros q [].
  - inversion Hapart as [|? ? Hp Hps]; subst.
    destruct (place_at dims color img0 (p_x p) (p_y p) (p_tile p))
      as [img1|e] eqn:E1; cbn [Py.bind]; [|discriminate].
    intros Hrun.
    destruct (place_at_shape _ _ _ _ _ _ _ _ Hmode E1) as [Hs1 Hm1].
    destruct (IH img1 img Hm1 Hps Hrun) as (Hs & Hm & Hpix).
    split; [congruence|]. split; [exact Hm|].
    intros x y Hin.
    assert (Hin1 : in_image img1 x y = true)
      by now rewrite (in_image_same_size img1 img0).
    destruct (Hpix x y Hin1) as (Htile & Hframe & Hrest).
    pose proof (place_at_pixel img0 p img1 Hmode E1 x y Hin) as Hone.
    assert (Hfar : in_footprint dims p x y = true ->
                   existsb (fun q => in_border dims q x y) ps = false).
    { intros Hf.
      destruct (existsb (fun q => in_border dims q x y) ps) eqn:Ex; [|reflexivity].
      apply existsb_exists in Ex as (q & Hq & Hb).
      rewrite Forall_forall in Hp. rewrite <- list_elem_of_In in Hq.
      destruct (Hp q Hq x y) as [H1 _]. rewrite (H1 Hf) in Hb. discriminate. }
    split; [|split].
    + intros q [<- | Hq] Hf.
      * rewrite Hrest by auto. now rewrite Hone, Hf.
      * now apply Htile.
    + cbn [existsb]. intros Hb Hf. apply orb_false_iff in Hf as [Hfp Hfps].
      destruct (existsb (fun q => on_border dims q x y) ps) eqn:Eb.
      * now apply Hframe.
      * rewrite orb_false_r in Hb.
        rewrite Hrest.
        -- now rewrite Hone, Hfp, Hb.
        -- destruct (existsb (fun q => in_border dims q x y) ps) eqn:Ex;
             [|reflexivity].
           apply existsb_exists in Ex as (q & Hq & Hq').
           rewrite in_border_split in Hq' by assumption.
           apply orb_true_iff in Hq' as [Hq' | Hq'].
           ++ assert (existsb (fun q => in_footprint dims q x y) ps = true)
                by (apply existsb_exists; eauto).
              congruence.
           ++ assert (existsb (fun q => on_border dims q x y) ps = true)
                by (apply existsb_exists; eauto).
              congruence.
    + cbn [existsb]. intros Hb. apply orb_false_iff in Hb as [Hbp Hbps].
      rewrite Hrest by exact Hbps. rewrite Hone.
      rewrite in_border_split in Hbp by assumption.
      apply orb_false_iff in Hbp as [-> ->]. reflexivity.
Qed.

End PlaceAt.

(** The result of a run, pixel by pixel. *)
Lemma arrange_pixels (fuel : nat) (tiles : list Image) (tw th k : Z)
    (color : Pixel) :
  1 <= k -> 0 <= tw -> 0 <= th ->
  Forall (fun t => size t = (tw, th)) tiles ->
  (length tiles < fuel)%nat ->
  1 + (tw + 1) * k <= MAX_XSIZE ->
  ceil_div (len tiles) k * (th + 1) + 1 <= INT_MAX ->
  exists rows img,
    split_rows fuel tiles k [] = Some rows /\
    arrangeRibbons fuel tiles (tw, th) k color = Some (Ok img) /\
    size img = canvas_size (tw, th) k (len rows) /\
    map p_tile (placements rows (tw, th) k) = tiles /\
    forall x y, in_image img x y = true ->
      (forall p, In p (placements rows (tw, th) k) ->
         in_footprint (tw, th) p x y = true ->
         getpixel img x y =
         getpixel (convert RGBA (p_tile p)) (x - p_x p) (y - p_y p)) /\
      (existsb (fun p => on_border (tw, th) p x y) (placements rows (tw, th) k) = true ->
       existsb (fun p => in_footprint (tw, th) p x y) (placements rows (tw, th) k) = false ->
       getpixel img x y = color) /\
      (existsb (fun p => in_border (tw, th) p x y) (placements rows (tw, th) k) = false ->
       getpixel img x y = background).
Proof.
  intros Hk Htw Hth Hsizes Hfuel Hwide Hhigh.
  destruct (split_rows_terminates k Hk fuel tiles [] Hfuel) as [rows Hrows].
  destruct (rows_partition k fuel tiles rows Hk Hrows) as (Hcat & Hlen & Hall).
  assert (Hw : fst (canvas_size (tw, th) k (len rows)) <= MAX_XSIZE)
    by exact Hwide.
  assert (Hh : snd (canvas_size (tw, th) k (len rows)) <= INT_MAX).
  { cbn [canvas_size fst snd]. rewrite Hlen. exact Hhigh. }
  destruct (arrange_rows_ok tw th k color fuel tiles rows Hk Htw Hth Hrows
              Hsizes Hw Hh) as (img & Himg & Hsz & _).
  exists rows, img. split; [exact Hrows|].
  split; [unfold arrangeRibbons; now rewrite Hrows, Himg|].
  split; [exact Hsz|].
  split; [now rewrite placements_tiles|].
  destruct (canvas_allocated tw th k rows Hk Htw Hth Hw Hh) as [Hnew _].
  unfold background in Hnew at 1.
  rewrite arrange_rows_placements, Hnew in Himg. cbn [Py.bind] in Himg.
  set (canvas := mkImage RGBA _ _) in Himg.
  destruct (placements_pixels tw th color Htw Hth _ canvas img eq_refl
              (placements_all_apart tw th k fuel tiles rows Hk Htw Hth Hrows) Himg)
    as (Hs & _ & Hpix).
  intros x y Hin. rewrite (in_image_same_size img canvas) in Hin by exact Hs.
  exact (Hpix x y Hin).
Qed.

(** X3: on a canvas that [Image.new] allocates (its width at most
    [MAX_XSIZE], its height at most [INT_MAX]), every tile is found intact
    in the grid: the pixel [(i, j)] of the tile of a placement, converted
    to RGBA, is the pixel of the returned bitmap at the origin of the
    placement plus [(i, j)]; nothing drawn later covers it. *)
Theorem arrange_shows_every_tile (fuel : nat) (tiles : list Image)
    (tw th k : Z) (color : Pixel) :
  1 <= k -> 0 <= tw -> 0 <= th ->
  Forall (fun t => size t = (tw, th)) tiles ->
  (length tiles < fuel)%nat ->
  1 + (tw + 1) * k <= MAX_XSIZE ->
  ceil_div (len tiles) k * (th + 1) + 1 <= INT_MAX ->
  exists rows img,
    split_rows fuel tiles k [] = Some rows /\
    arrangeRibbons fuel tiles (tw, th) k color = Some (Ok img) /\
    map p_tile (placements rows (tw, th) k) = tiles /\
    forall p i j,
      In p (placements rows (tw, th) k) ->
      0 <= i < tw -> 0 <= j < th ->
      getpixel img (p_x p + i) (p_y p + j) =
      getpixel (convert RGBA (p_tile p)) i j.
Proof.
  intros Hk Htw Hth Hsizes Hfuel Hwide Hhigh.
  destruct (arrange_pixels fuel tiles tw th k color Hk Htw Hth Hsizes Hfuel
              Hwide Hhigh)
    as (rows & img & Hrows & Himg & Hsz & Htiles & Hpix).
  exists rows, img. split; [exact Hrows|]. split; [exact Himg|].
  split; [exact Htiles|].
  intros p i j Hp Hi Hj.
  assert (Hf : in_footprint (tw, th) p (p_x p + i) (p_y p + j) = true).
  { unfold in_footprint. cbn [fst snd]. zbool; try reflexivity; lia. }
  assert (Hin : in_image img (p_x p + i) (p_y p + j) = true).
  { destruct (placement_on_canvas tw th k fuel tiles rows Hk Htw Hth Hrows
                p (p_x p + i) (p_y p + j) Hp) as [Hx Hy].
    - rewrite in_border_split by assumption. now rewrite Hf.
    - unfold in_image, width, height. rewrite Hsz.
      zbool; try reflexivity; lia. }
  destruct (Hpix _ _ Hin) as (Htile & _ & _).
  rewrite (Htile p Hp Hf). f_equal; lia.
Qed.

Lemma arrange_shows_every_tile_witness :
  exists rows img,
    split_rows 7 Samples.six_ribbons 4 [] = Some rows /\
    arrangeRibbons 7 Samples.six_ribbons (9, 3) 4 Samples.outline = Some (Ok img) /\
    map p_tile (placements rows (9, 3) 4) = Samples.six_ribbons /\
    forall p i j,
      In p (placements rows (9, 3) 4) ->
      0 <= i < 9 -> 0 <= j < 3 ->
      getpixel img (p_x p + i) (p_y p + j) =
      getpixel (convert RGBA (p_tile p)) i j.
Proof.
  apply (arrange_shows_every_tile 7 Samples.six_ribbons 9 3 4 Samples.outline).
  - lia.
  - lia.
  - lia.
  - repeat constructor.
  - cbn. lia.
  - unfold MAX_XSIZE. lia.
  - change (2 * (3 + 1) + 1 <= 2147483647). lia.
Defined.

(** X4: on a canvas that [Image.new] allocates, every pixel of the frame
    of every placement has the outline colour in the returned bitmap: no
    tile is pasted over a frame, and a frame shared with a neighbour is
    painted in the same colour twice. *)
Theorem arrange_frames_every_tile (fuel : nat) (tiles : list Image)
    (tw th k : Z) (color : Pixel) :
  1 <= k -> 0 <= tw -> 0 <= th ->
  Forall (fun t => size t = (tw, th)) tiles ->
  (length tiles < fuel)%nat ->
  1 + (tw + 1) * k <= MAX_XSIZE ->
  ceil_div (len tiles) k * (th + 1) + 1 <= INT_MAX ->
  exists rows img,
    split_rows fuel tiles k [] = Some rows /\
    arrangeRibbons fuel tiles (tw, th) k color = Some (Ok img) /\
    forall p x y,
      In p (placements rows (tw, th) k) ->
      on_border (tw, th) p x y = true ->
      in_image img x y = true /\ getpixel img x y = color.
Proof.
  intros Hk Htw Hth Hsizes Hfuel Hwide Hhigh.
  destruct (arrange_pixels fuel tiles tw th k color Hk Htw Hth Hsizes Hfuel
              Hwide Hhigh)
    as (rows & img & Hrows & Himg & Hsz & Htiles & Hpix).
  exists rows, img. split; [exact Hrows|]. split; [exact Himg|].
  intros p x y Hp Hb.
  assert (Hbox : in_border (tw, th) p x y = true).
  { rewrite in_border_split by assumption. rewrite Hb. apply orb_true_r. }
  assert (Hin : in_image img x y = true).
  { destruct (placement_on_canvas tw th k fuel tiles rows Hk Htw Hth Hrows
                p x y Hp Hbox) as [Hx Hy].
    unfold in_image, width, height. rewrite Hsz.
    zbool; try reflexivity; lia. }
  split; [exact Hin|].
  destruct (Hpix _ _ Hin) as (_ & Hframe & _). apply Hframe.
  - apply existsb_exists. eauto.
  - destruct (existsb (fun q => in_footprint (tw, th) q x y)
                (placements rows (tw, th) k)) eqn:Ex; [|reflexivity].
    apply existsb_exists in Ex as (q & Hq & Hf).
    assert (Hcase : q = p \/ q <> p).
    { destruct (Z.eq_dec (p_row q) (p_row p)) as [Er|Er];
        [destruct (Z.eq_dec (p_col q) (p_col p)) as [Ec|Ec]|].
      - left. exact (placement_unique tw th k rows q p Hq Hp Er Ec).
      - right. intros ->. now apply Ec.
      - right. intros ->. now apply Er. }
    destruct Hcase as [-> | Hne].
    + rewrite (footprint_not_border tw th p x y Hf) in Hb. discriminate.
    + destruct (placements_apart tw th k fuel tiles rows Hk Htw Hth Hrows
                  q p Hq Hp Hne x y) as [H1 _].
      rewrite (H1 Hf) in Hbox. discriminate.
Qed.

Lemma arrange_frames_every_tile_witness :
  exists rows img,
    split_rows 7 Samples.six_ribbons 4 [] = Some rows /\
    arrangeRibbons 7 Samples.six_ribbons (9, 3) 4 Samples.outline = Some (Ok img) /\
    forall p x y,
      In p (placements rows (9, 3) 4) ->
      on_border (9, 3) p x y = true ->
      in_image img x y = true /\ getpixel img x y = Samples.outline.
Proof.
  apply (arrange_frames_every_tile 7 Samples.six_ribbons 9 3 4 Samples.outline).
  - lia.
  - lia.
  - lia.
  - repeat constructor.
  - cbn. lia.
  - unfold MAX_XSIZE. lia.
  - change (2 * (3 + 1) + 1 <= 2147483647). lia.
Defined.

(** X5: on a canvas that [Image.new] allocates, a pixel of the returned
    bitmap that lies in the border rectangle of no placement still has the
    background of line 46, white with alpha 0: the margins of a short row
    stay transparent. *)
Theorem arrange_leaves_margins_transparent (fuel : nat) (tiles : list Image)
    (tw th k : Z) (color : Pixel) :
  1 <= k -> 0 <= tw -> 0 <= th ->
  Forall (fun t => size t = (tw, th)) tiles ->
  (length tiles < fuel)%nat ->
  1 + (tw + 1) * k <= MAX_XSIZE ->
  ceil_div (len tiles) k * (th + 1) + 1 <= INT_MAX ->
  exists rows img,
    split_rows fuel tiles k [] = Some rows /\
    arrangeRibbons fuel tiles (tw, th) k color = Some (Ok img) /\
    forall x y,
      in_image img x y = true ->
      (forall p, In p (placements rows (tw, th) k) ->
         in_border (tw, th) p x y = false) ->
      getpixel img x y = background.
Proof.
  intros Hk Htw Hth Hsizes Hfuel Hwide Hhigh.
  destruct (arrange_pixels fuel tiles tw th k color Hk Htw Hth Hsizes Hfuel
              Hwide Hhigh)
    as (rows & img & Hrows & Himg & Hsz & Htiles & Hpix).
  exists rows, img. split; [exact Hrows|]. split; [exact Himg|].
  intros x y Hin Hfree.
  destruct (Hpix _ _ Hin) as (_ & _ & Hrest). apply Hrest.
  destruct (existsb (fun q => in_border (tw, th) q x y)
              (placements rows (tw, th) k)) eqn:Ex; [|reflexivity].
  apply existsb_exists in Ex as (q & Hq & Hb).
  rewrite (Hfree q Hq) in Hb. discriminate.
Qed.

Lemma arrange_leaves_margins_transparent_witness :
  exists rows img,
    split_rows 7 Samples.six_ribbons 4 [] = Some rows /\
    arrangeRibbons 7 Samples.six_ribbons (9, 3) 4 Samples.outline = Some (Ok img) /\
    forall x y,
      in_image img x y = true ->
      (forall p, In p (placements rows (9, 3) 4) ->
         in_border (9, 3) p x y = false) ->
      getpixel img x y = background.
Proof.
  apply (arrange_leaves_margins_transparent 7 Samples.six_ribbons 9 3 4
           Samples.outline).
  - lia.
  - lia.
  - lia.
  - repeat constructor.
  - cbn. lia.
  - unfold MAX_XSIZE. lia.
  - change (2 * (3 + 1) + 1 <= 2147483647). lia.
Defined.


(** ** [placeRibbonGrid]: warnings, allocation, repetition *)

(** X6: whether it returns or the paste raises, [placeRibbonGrid] has
    printed, in this order, the t-shirt warning exactly when the canvas is
    not RGBA, the ribbon warning exactly when the overlay is not RGBA, and
    the origin warning exactly when the anchor as given (before the
    adjustment for bottom alignment) is not a pixel of the canvas; and it
    has created one object per converted input.  With a box of C [int]s it
    returns. *)
Theorem placeRibbonGrid_warnings (w : World) (tShirt ribbons : loc)
    (canvas overlay : Image) (x y : Z) (alignTop : bool) :
  heap w !! tShirt = Some canvas ->
  heap w !! ribbons = Some overlay ->
  let run := placeRibbonGrid tShirt ribbons (x, y) alignTop w in
  stdout (snd run) =
    stdout w
    ++ (if mode_eqb (mode canvas) RGBA then [] else [warn_tshirt_mode])
    ++ (if mode_eqb (mode overlay) RGBA then [] else [warn_ribbons_mode])
    ++ (if (0 <=? x) && (x <? width canvas) && (0 <=? y) && (y <? height canvas)
        then [] else [warn_origin]) /\
  length (heap (snd run)) =
    (length (heap w)
     + (if mode_eqb (mode canvas) RGBA then 0 else 1)
     + (if mode_eqb (mode overlay) RGBA then 0 else 1))%nat /\
  (int_box (target_box (x, y) alignTop overlay) = true ->
   exists result, fst run = Ok result).
Proof.
  intros Hc Ho. cbv zeta.
  rewrite (placeRibbonGrid_steps w tShirt ribbons canvas overlay Hc Ho (x, y)
             alignTop).
  assert (Hworld :
    forall pasted,
      stdout (noted (outside (x, y) canvas) warn_origin
                (snd (as_RGBA warn_ribbons_mode ribbons overlay
                        (snd (as_RGBA warn_tshirt_mode tShirt canvas w)))))
      = stdout w
        ++ (if mode_eqb (mode canvas) RGBA then [] else [warn_tshirt_mode])
        ++ (if mode_eqb (mode overlay) RGBA then [] else [warn_ribbons_mode])
        ++ (if (0 <=? x) && (x <? width canvas) && (0 <=? y) && (y <? height canvas)
            then [] else [warn_origin]) /\
      length (<[fst (as_RGBA warn_tshirt_mode tShirt canvas w) := pasted]>
                (heap (noted (outside (x, y) canvas) warn_origin
                   (snd (as_RGBA warn_ribbons_mode ribbons overlay
                           (snd (as_RGBA warn_tshirt_mode tShirt canvas w)))))))
      = (length (heap w)
         + (if mode_eqb (mode canvas) RGBA then 0 else 1)
         + (if mode_eqb (mode overlay) RGBA then 0 else 1))%nat).
  { intros pasted. rewrite length_insert, heap_noted, stdout_noted.
    unfold as_RGBA, outside, width, height. cbn [fst snd].
    destruct (mode_eqb (mode canvas) RGBA), (mode_eqb (mode overlay) RGBA);
      cbn [fst snd heap stdout]; rewrite ?length_app; cbn [length];
      (split; [|lia]);
      destruct (0 <=? x), (x <? fst (size canvas)), (0 <=? y),
               (y <? snd (size canvas));
      cbn [andb orb negb app]; rewrite <- ?app_assoc, ?app_nil_r; reflexivity. }
  destruct (paste_core _ _ _ (target_box (x, y) alignTop overlay))
    as [pasted|e] eqn:Hcore; cbn [fst snd heap stdout].
  - destruct (Hworld pasted) as [Hout Hlen]. eauto.
  - destruct (Hworld canvas) as [Hout Hlen].
    rewrite length_insert in Hlen. split; [exact Hout|]. split; [exact Hlen|].
    intros Hint.
    destruct (paste_RGBA_ok canvas overlay (x, y) alignTop
                (Nat.eqb (fst (as_RGBA warn_tshirt_mode tShirt canvas w))
                   (fst (as_RGBA warn_ribbons_mode ribbons overlay
                           (snd (as_RGBA warn_tshirt_mode tShirt canvas w)))))
                Hint) as (pasted & Hp & _).
    congruence.
Qed.

Lemma placeRibbonGrid_warnings_witness :
  let run := placeRibbonGrid 0%nat 1%nat (7, 1) true Scenes.rgb_world in
  stdout (snd run) =
    stdout Scenes.rgb_world
    ++ (if mode_eqb (mode Scenes.rgb_canvas) RGBA then [] else [warn_tshirt_mode])
    ++ (if mode_eqb (mode Scenes.rgba_patch) RGBA then [] else [warn_ribbons_mode])
    ++ (if (0 <=? 7) && (7 <? width Scenes.rgb_canvas)
           && (0 <=? 1) && (1 <? height Scenes.rgb_canvas)
        then [] else [warn_origin]) /\
  length (heap (snd run)) =
    (length (heap Scenes.rgb_world)
     + (if mode_eqb (mode Scenes.rgb_canvas) RGBA then 0 else 1)
     + (if mode_eqb (mode Scenes.rgba_patch) RGBA then 0 else 1))%nat /\
  (int_box (target_box (7, 1) true Scenes.rgba_patch) = true ->
   exists result, fst run = Ok result).
Proof.
  apply (placeRibbonGrid_warnings Scenes.rgb_world 0%nat 1%nat
           Scenes.rgb_canvas Scenes.rgba_patch 7 1 true).
  - reflexivity.
  - reflexivity.
Defined.

(** X7: an overlay aligned by its bottom-left corner to the bottom-left
    corner of the canvas, anchor [(x, canvas.height)], lies entirely on
    the canvas, and yet the origin warning is printed: line 91 tests the
    anchor before line 95 moves it up. *)
Theorem placeRibbonGrid_warns_at_bottom_edge (w : World) (tShirt ribbons : loc)
    (canvas overlay : Image) (x : Z) :
  heap w !! tShirt = Some canvas ->
  heap w !! ribbons = Some overlay ->
  0 <= x -> x + width overlay <= width canvas ->
  0 <= height overlay <= height canvas ->
  exists result w',
    placeRibbonGrid tShirt ribbons (x, height canvas) false w = (Ok result, w') /\
    In warn_origin (stdout w') /\
    forall px py,
      in_box (target_box (x, height canvas) false overlay) px py ->
      in_image canvas px py = true.
Proof.
  intros Hc Ho Hx Hw Hh.
  assert (Hint : int_box (target_box (x, height canvas) false overlay) = true).
  { unfold target_box. cbn [fst snd]. apply int_box_spec.
    pose proof (size_range canvas) as [[C1 C2] [C3 C4]].
    pose proof (size_range overlay) as [[O1 O2] [O3 O4]].
    unfold INT_MIN, INT_MAX in *. repeat split; lia. }
  destruct (placeRibbonGrid_run w tShirt ribbons canvas overlay Hc Ho
              (x, height canvas) false Hint) as (pasted & _ & _ & _ & Hrun).
  eexists _, _. split; [exact Hrun|]. cbn [heap stdout]. split.
  - rewrite stdout_noted.
    assert (Hout : outside (x, height canvas) canvas = true).
    { unfold outside, height. cbn [fst snd].
      rewrite Z.ltb_irrefl, !andb_false_r. apply orb_true_r. }
    rewrite Hout. apply in_or_app. right. now left.
  - intros px py. unfold in_box, target_box, in_image. cbn [fst snd].
    intros [Hpx Hpy]. zbool; try reflexivity; lia.
Qed.

Lemma placeRibbonGrid_warns_at_bottom_edge_witness :
  exists result w',
    placeRibbonGrid 0%nat 1%nat (1, height Scenes.rgba_canvas) false Scenes.rgba_world
      = (Ok result, w') /\
    In warn_origin (stdout w') /\
    forall px py,
      in_box (target_box (1, height Scenes.rgba_canvas) false Scenes.rgba_patch) px py ->
      in_image Scenes.rgba_canvas px py = true.
Proof.
  apply (placeRibbonGrid_warns_at_bottom_edge Scenes.rgba_world 0%nat 1%nat
           Scenes.rgba_canvas Scenes.rgba_patch 1).
  - reflexivity.
  - reflexivity.
  - lia.
  - change (1 + 2 <= 4). lia.
  - change (0 <= 2 <= 4). lia.
Defined.

(** An RGBA canvas, an overlay that is another object and a box of C
    [int]s: the canvas is the object returned, the overlay object is as it
    was, and the pixels of the canvas are the overlay's inside the box and
    the old ones elsewhere. *)
Lemma place_on_RGBA (w : World) (tShirt ribbons : loc)
    (canvas overlay : Image) (origin : Z * Z) (alignTop : bool) :
  heap w !! tShirt = Some canvas ->
  heap w !! ribbons = Some overlay ->
  mode canvas = RGBA -> tShirt <> ribbons ->
  int_box (target_box origin alignTop overlay) = true ->
  exists w' out,
    placeRibbonGrid tShirt ribbons origin alignTop w = (Ok tShirt, w') /\
    heap w' !! tShirt = Some out /\
    (forall l x, l <> tShirt -> heap w !! l = Some x -> heap w' !! l = Some x) /\
    mode out = RGBA /\ size out = size canvas /\
    forall x y, in_image canvas x y = true ->
      (in_box (target_box origin alignTop overlay) x y ->
       getpixel out x y =
       getpixel (convert RGBA overlay)
         (x - fst origin)
         (y - (if alignTop then snd origin else snd origin - height overlay))) /\
      (~ in_box (target_box origin alignTop overlay) x y ->
       getpixel out x y = getpixel canvas x y).
Proof.
  intros Hc Ho Hmode Hne Hint.
  destruct (placeRibbonGrid_run w tShirt ribbons canvas overlay Hc Ho origin
              alignTop Hint)
    as (pasted & Hcore & Hsize & Hm & Hrun).
  pose proof (result_loc w tShirt canvas) as Hloc.
  pose proof (result_valid w tShirt ribbons canvas overlay Hc origin) as Hvalid.
  assert (Emode : mode_eqb (mode canvas) RGBA = true) by now apply mode_eqb_eq.
  match type of Hcore with
  | paste_core ?b _ _ _ = _ => assert (Ealias : b = false)
  end.
  { match goal with |- ?b = false => destruct b eqn:E end; [|reflexivity].
    apply result_is_grid in E as [E _]; [contradiction | assumption..]. }
  rewrite Ealias in Hcore.
  pose proof (fun l => other_objects w tShirt ribbons canvas overlay origin l pasted)
    as Hother.
  rewrite Emode in Hloc. rewrite Hloc in Hrun, Hvalid, Hother.
  eexists _, pasted. split; [exact Hrun|]. cbn [heap].
  split; [now apply list_lookup_insert_eq|].
  split.
  { intros l x Hl Hx. rewrite Hother; [exact Hx | exact Hl |].
    eapply lookup_lt_Some; eauto. }
  split; [exact Hm|]. split; [exact Hsize|].
  rewrite (convert_same RGBA canvas Hmode) in Hcore.
  intros x y Hin. split.
  - intros Hbox.
    unfold target_box, in_box in *. cbn [fst snd] in *.
    apply (paste_core_inside _ _ _ _ _ _ _ Hcore); tauto.
  - intros Hout. eapply paste_core_frame; [exact Hcore|].
    unfold target_box, in_box in *. exact Hout.
Qed.

(** X8: placing the same overlay at the same anchor, its box made of C
    [int]s, a second time changes no pixel of an RGBA canvas: the paste
    replaces, so repeating it adds nothing. *)
Theorem placeRibbonGrid_twice (w : World) (tShirt ribbons : loc)
    (canvas overlay : Image) (origin : Z * Z) (alignTop : bool) :
  heap w !! tShirt = Some canvas ->
  heap w !! ribbons = Some overlay ->
  mode canvas = RGBA -> tShirt <> ribbons ->
  int_box (target_box origin alignTop overlay) = true ->
  exists w1 w2 once twice,
    placeRibbonGrid tShirt ribbons origin alignTop w = (Ok tShirt, w1) /\
    placeRibbonGrid tShirt ribbons origin alignTop w1 = (Ok tShirt, w2) /\
    heap w1 !! tShirt = Some once /\
    heap w2 !! tShirt = Some twice /\
    size twice = size once /\
    forall x y, in_image canvas x y = true ->
      getpixel twice x y = getpixel once x y.
Proof.
  intros Hc Ho Hmode Hne Hint.
  destruct (place_on_RGBA w tShirt ribbons canvas overlay origin alignTop
              Hc Ho Hmode Hne Hint)
    as (w1 & once & Hrun1 & Hc1 & Hkeep & Hm1 & Hs1 & Hpix1).
  assert (Ho1 : heap w1 !! ribbons = Some overlay) by (apply Hkeep; auto).
  destruct (place_on_RGBA w1 tShirt ribbons once overlay origin alignTop
              Hc1 Ho1 Hm1 Hne Hint)
    as (w2 & twice & Hrun2 & Hc2 & _ & _ & Hs2 & Hpix2).
  exists w1, w2, once, twice. repeat (split; [assumption|]).
  intros x y Hin.
  assert (Hin1 : in_image once x y = true)
    by now rewrite (in_image_same_size once canvas).
  destruct (Hpix1 x y Hin) as [Hi1 Ho1'].
  destruct (Hpix2 x y Hin1) as [Hi2 Ho2'].
  assert (Hdec : in_box (target_box origin alignTop overlay) x y \/
                 ~ in_box (target_box origin alignTop overlay) x y).
  { unfold in_box, target_box. lia. }
  destruct Hdec as [Hb | Hb].
  - now rewrite Hi1, Hi2.
  - now apply Ho2'.
Qed.

Lemma placeRibbonGrid_twice_witness :
  exists w1 w2 once twice,
    placeRibbonGrid 0%nat 1%nat (1, 1) true Scenes.rgba_world = (Ok 0%nat, w1) /\
    placeRibbonGrid 0%nat 1%nat (1, 1) true w1 = (Ok 0%nat, w2) /\
    heap w1 !! 0%nat = Some once /\
    heap w2 !! 0%nat = Some twice /\
    size twice = size once /\
    forall x y, in_image Scenes.rgba_canvas x y = true ->
      getpixel twice x y = getpixel once x y.
Proof.
  apply (placeRibbonGrid_twice Scenes.rgba_world 0%nat 1%nat
           Scenes.rgba_canvas Scenes.rgba_patch (1, 1) true).
  - reflexivity.
  - reflexivity.
  - reflexivity.
  - discriminate.
  - reflexivity.
Defined.

(** X15: two overlays whose boxes are made of C [int]s and share no pixel
    can be placed on an RGBA canvas in either order: the canvas ends with
    the same pixels. *)
Theorem placeRibbonGrid_commutes (w : World) (tShirt first second : loc)
    (canvas overlay1 overlay2 : Image) (origin1 origin2 : Z * Z)
    (top1 top2 : bool) :
  heap w !! tShirt = Some canvas ->
  heap w !! first = Some overlay1 ->
  heap w !! second = Some overlay2 ->
  mode canvas = RGBA -> tShirt <> first -> tShirt <> second ->
  int_box (target_box origin1 top1 overlay1) = true ->
  int_box (target_box origin2 top2 overlay2) = true ->
  (forall x y,
     ~ (in_box (target_box origin1 top1 overlay1) x y /\
        in_box (target_box origin2 top2 overlay2) x y)) ->
  exists wa wab wb wba out_ab out_ba,
    placeRibbonGrid tShirt first origin1 top1 w = (Ok tShirt, wa) /\
    placeRibbonGrid tShirt second origin2 top2 wa = (Ok tShirt, wab) /\
    placeRibbonGrid tShirt second origin2 top2 w = (Ok tShirt, wb) /\
    placeRibbonGrid tShirt first origin1 top1 wb = (Ok tShirt, wba) /\
    heap wab !! tShirt = Some out_ab /\
    heap wba !! tShirt = Some out_ba /\
    size out_ab = size out_ba /\
    forall x y, in_image canvas x y = true ->
      getpixel out_ab x y = getpixel out_ba x y.
Proof.
  intros Hc H1 H2 Hmode Hn1 Hn2 Hint1 Hint2 Hdisj.
  destruct (place_on_RGBA w tShirt first canvas overlay1 origin1 top1
              Hc H1 Hmode Hn1 Hint1)
    as (wa & a & Hra & Hca & Hka & Hma & Hsa & Hpa).
  destruct (place_on_RGBA wa tShirt second a overlay2 origin2 top2
              Hca (Hka _ _ (not_eq_sym Hn2) H2) Hma Hn2 Hint2)
    as (wab & ab & Hrab & Hcab & _ & _ & Hsab & Hpab).
  destruct (place_on_RGBA w tShirt second canvas overlay2 origin2 top2
              Hc H2 Hmode Hn2 Hint2)
    as (wb & b & Hrb & Hcb & Hkb & Hmb & Hsb & Hpb).
  destruct (place_on_RGBA wb tShirt first b overlay1 origin1 top1
              Hcb (Hkb _ _ (not_eq_sym Hn1) H1) Hmb Hn1 Hint1)
    as (wba & ba & Hrba & Hcba & _ & _ & Hsba & Hpba).
  exists wa, wab, wb, wba, ab, ba.
  repeat (split; [assumption|]). split; [congruence|].
  intros x y Hin.
  assert (Hina : in_image a x y = true)
    by now rewrite (in_image_same_size a canvas).
  assert (Hinb : in_image b x y = true)
    by now rewrite (in_image_same_size b canvas).
  destruct (Hpa x y Hin) as [Ha_in Ha_out].
  destruct (Hpab x y Hina) as [Hab_in Hab_out].
  destruct (Hpb x y Hin) as [Hb_in Hb_out].
  destruct (Hpba x y Hinb) as [Hba_in Hba_out].
  assert (D1 : in_box (target_box origin1 top1 overlay1) x y \/
               ~ in_box (target_box origin1 top1 overlay1) x y)
    by (unfold in_box, target_box; lia).
  assert (D2 : in_box (target_box origin2 top2 overlay2) x y \/
               ~ in_box (target_box origin2 top2 overlay2) x y)
    by (unfold in_box, target_box; lia).
  destruct D1 as [B1 | B1], D2 as [B2 | B2].
  - exfalso. apply (Hdisj x y). auto.
  - rewrite (Hab_out B2), (Ha_in B1), (Hba_in B1). reflexivity.
  - rewrite (Hab_in B2), (Hba_out B1), (Hb_in B2). reflexivity.
  - rewrite (Hab_out B2), (Ha_out B1), (Hba_out B1), (Hb_out B2). reflexivity.
Qed.

Lemma placeRibbonGrid_commutes_witness :
  exists wa wab wb wba out_ab out_ba,
    placeRibbonGrid 0%nat 1%nat (0, 0) true Scenes.rgba_world = (Ok 0%nat, wa) /\
    placeRibbonGrid 0%nat 1%nat (2, 2) true wa = (Ok 0%nat, wab) /\
    placeRibbonGrid 0%nat 1%nat (2, 2) true Scenes.rgba_world = (Ok 0%nat, wb) /\
    placeRibbonGrid 0%nat 1%nat (0, 0) true wb = (Ok 0%nat, wba) /\
    heap wab !! 0%nat = Some out_ab /\
    heap wba !! 0%nat = Some out_ba /\
    size out_ab = size out_ba /\
    forall x y, in_image Scenes.rgba_canvas x y = true ->
      getpixel out_ab x y = getpixel out_ba x y.
Proof.
  apply (placeRibbonGrid_commutes Scenes.rgba_world 0%nat 1%nat 1%nat
           Scenes.rgba_canvas Scenes.rgba_patch Scenes.rgba_patch
           (0, 0) (2, 2) true true).
  - reflexivity.
  - reflexivity.
  - reflexivity.
  - reflexivity.
  - discriminate.
  - discriminate.
  - reflexivity.
  - reflexivity.
  - intros x y. unfold in_box, target_box.
    change (width Scenes.rgba_patch) with 2.
    change (height Scenes.rgba_patch) with 2. cbn [fst snd]. lia.
Defined.

(** ** The blank garment and the whole pipeline *)

Lemma newTShirt_run (w : World) :
  newTShirt w
  = (Ok (length (heap w)),
     mkWorld (heap w ++ [mkImage RGBA (128, 128) (fun _ _ => (0, 0, 0, 0))])
             (stdout w)).
Proof. reflexivity. Qed.

(** X9: a grid placed on a garment just made, in a box of C [int]s:
    [newTShirt] gives a new object, [placeRibbonGrid] returns that very
    object (no copy is made, the garment being RGBA), still 128 by 128,
    and the grid object is left as it was; on the garment the pixels of
    the box are the grid's and all others are fully transparent black. *)
Theorem new_shirt_with_grid (w : World) (ribbons : loc) (grid : Image)
    (origin : Z * Z) (alignTop : bool) :
  heap w !! ribbons = Some grid ->
  int_box (target_box origin alignTop grid) = true ->
  exists w' out,
    Store.mbind newTShirt
      (fun tShirt => placeRibbonGrid tShirt ribbons origin alignTop) w
      = (Ok (length (heap w)), w') /\
    heap w' !! length (heap w) = Some out /\
    heap w' !! ribbons = Some grid /\
    mode out = RGBA /\ size out = (128, 128) /\
    forall x y, 0 <= x < 128 -> 0 <= y < 128 ->
      (in_box (target_box origin alignTop grid) x y ->
       getpixel out x y =
       getpixel (convert RGBA grid)
         (x - fst origin)
         (y - (if alignTop then snd origin else snd origin - height grid))) /\
      (~ in_box (target_box origin alignTop grid) x y ->
       getpixel out x y = (0, 0, 0, 0)).
Proof.
  intros Hg Hint.
  set (blank := mkImage RGBA (128, 128) (fun _ _ => (0, 0, 0, 0))).
  set (w1 := mkWorld (heap w ++ [blank]) (stdout w)).
  assert (Ht : heap w1 !! length (heap w) = Some blank) by apply lookup_snoc_new.
  assert (Hg1 : heap w1 !! ribbons = Some grid) by now apply lookup_snoc_old.
  assert (Hne : length (heap w) <> ribbons).
  { apply lookup_lt_Some in Hg. lia. }
  destruct (place_on_RGBA w1 (length (heap w)) ribbons blank grid origin alignTop
              Ht Hg1 eq_refl Hne Hint)
    as (w' & out & Hrun & Hout & Hkeep & Hm & Hs & Hpix).
  assert (Hgrid : heap w' !! ribbons = Some grid) by (apply Hkeep; auto).
  exists w', out.
  split; [rewrite (bind_run _ _ _ _ _ (newTShirt_run w)); exact Hrun|].
  split; [exact Hout|]. split; [exact Hgrid|]. split; [exact Hm|].
  split; [exact Hs|].
  intros x y Hx Hy.
  assert (Hin : in_image blank x y = true).
  { unfold in_image. change (width blank) with 128.
    change (height blank) with 128. zbool; try reflexivity; lia. }
  destruct (Hpix x y Hin) as [Hi Ho]. split; [exact Hi|].
  intros Hb. now rewrite Ho.
Qed.

Lemma new_shirt_with_grid_witness :
  exists w' out,
    Store.mbind newTShirt
      (fun tShirt => placeRibbonGrid tShirt 1%nat (3, 4) true) Scenes.rgba_world
      = (Ok (length (heap Scenes.rgba_world)), w') /\
    heap w' !! length (heap Scenes.rgba_world) = Some out /\
    heap w' !! 1%nat = Some Scenes.rgba_patch /\
    mode out = RGBA /\ size out = (128, 128) /\
    forall x y, 0 <= x < 128 -> 0 <= y < 128 ->
      (in_box (target_box (3, 4) true Scenes.rgba_patch) x y ->
       getpixel out x y =
       getpixel (convert RGBA Scenes.rgba_patch)
         (x - fst (3, 4))
         (y - (if true then snd (3, 4) else snd (3, 4) - height Scenes.rgba_patch))) /\
      (~ in_box (target_box (3, 4) true Scenes.rgba_patch) x y ->
       getpixel out x y = (0, 0, 0, 0)).
Proof.
  apply (new_shirt_with_grid Scenes.rgba_world 1%nat Scenes.rgba_patch (3, 4) true).
  - reflexivity.
  - reflexivity.
Defined.

(** A list of default tiles so long that the height of the canvas is no
    C [int] makes [Image.new] raise on line 46. *)
Lemma default_grid_too_tall (fuel : nat) (tiles : list Image) :
  (length tiles < fuel)%nat ->
  INT_MAX < 4 * ceil_div (len tiles) 4 + 1 ->
  arrangeRibbons fuel tiles default_dimensions default_per_row default_outline
  = Some (Raise OverflowError).
Proof.
  intros Hfuel Htall. unfold default_dimensions, default_per_row in *.
  destruct (split_rows_terminates 4 ltac:(lia) fuel tiles [] Hfuel) as [rows Hrows].
  destruct (rows_partition 4 fuel tiles rows ltac:(lia) Hrows)
    as (Hcat & Hlen & Hall).
  unfold arrangeRibbons. rewrite Hrows, arrange_rows_placements.
  unfold new, canvas_size, is_int, INT_MIN, INT_MAX in *. cbn [fst snd].
  rewrite Hlen.
  destruct (Z.ltb_spec (ceil_div (len tiles) 4 * (3 + 1) + 1) 0); [lia|].
  destruct (Z.leb_spec (ceil_div (len tiles) 4 * (3 + 1) + 1) 2147483647);
    [lia|].
  cbn. now rewrite andb_false_r.
Qed.

(** X10: with the default tile size, row length and garment, and as long
    as the height of the canvas is a C [int] ([Image.new] raises beyond),
    the grid is 41 pixels wide and four pixels per row plus one high: it
    is no taller than the 128 pixels of the garment exactly up to 124
    ribbons. *)
Theorem default_grid_capacity (fuel : nat) (tiles : list Image) :
  Forall (fun t => size t = default_dimensions) tiles ->
  (length tiles < fuel)%nat ->
  4 * ceil_div (len tiles) 4 + 1 <= INT_MAX ->
  exists img,
    arrangeRibbons fuel tiles default_dimensions default_per_row default_outline
      = Some (Ok img) /\
    width img = 41 /\
    height img = 4 * ceil_div (len tiles) 4 + 1 /\
    (height img <= 128 <-> len tiles <= 124).
Proof.
  intros Hsizes Hfuel Hhigh. unfold default_dimensions, default_per_row in *.
  assert (Hk : 1 <= 4) by lia. assert (Htw : 0 <= 9) by lia.
  assert (Hth : 0 <= 3) by lia.
  destruct (split_rows_terminates 4 Hk fuel tiles [] Hfuel) as [rows Hrows].
  destruct (rows_partition 4 fuel tiles rows Hk Hrows)
    as (Hcat & Hlen & Hall).
  destruct (arrange_rows_ok 9 3 4 default_outline fuel tiles rows Hk Htw Hth
              Hrows Hsizes) as (img & Himg & Hsz & _).
  { cbn [canvas_size fst snd]. unfold MAX_XSIZE. lia. }
  { cbn [canvas_size fst snd]. rewrite Hlen. lia. }
  exists img. split; [unfold arrangeRibbons; now rewrite Hrows, Himg|].
  unfold width, height. rewrite Hsz. cbn [canvas_size fst snd]. rewrite Hlen.
  split; [reflexivity|]. split; [lia|].
  unfold ceil_div. pose proof (len_nonneg tiles) as Hn.
  pose proof (Z.div_mod (len tiles + 4 - 1) 4 ltac:(lia)) as Hdm.
  pose proof (Z.mod_pos_bound (len tiles + 4 - 1) 4 ltac:(lia)) as Hb.
  split; intros H; lia.
Qed.

Lemma default_grid_capacity_witness :
  exists img,
    arrangeRibbons 7 Samples.six_ribbons default_dimensions default_per_row
      default_outline = Some (Ok img) /\
    width img = 41 /\
    height img = 4 * ceil_div (len Samples.six_ribbons) 4 + 1 /\
    (height img <= 128 <-> len Samples.six_ribbons <= 124).
Proof.
  apply (default_grid_capacity 7 Samples.six_ribbons).
  - repeat constructor.
  - cbn. lia.
  - change (4 * 2 + 1 <= 2147483647). lia.
Defined.

(** X11: the whole pipeline with the defaults: up to 124 ribbons, arranged
    and placed at the top-left corner of a new garment, are all found on
    the garment, each intact at the origin of its placement. *)
Theorem default_shirt_shows_every_ribbon (fuel : nat) (tiles : list Image)
    (w : World) :
  Forall (fun t => size t = default_dimensions) tiles ->
  len tiles <= 124 ->
  (length tiles < fuel)%nat ->
  exists rows grid w' out,
    split_rows fuel tiles default_per_row [] = Some rows /\
    arrangeRibbons fuel tiles default_dimensions default_per_row default_outline
      = Some (Ok grid) /\
    Store.mbind newTShirt
      (fun tShirt =>
         Store.mbind (alloc grid)
           (fun ribbons => placeRibbonGrid tShirt ribbons (0, 0) true)) w
      = (Ok (length (heap w)), w') /\
    heap w' !! length (heap w) = Some out /\
    map p_tile (placements rows default_dimensions default_per_row) = tiles /\
    forall p i j,
      In p (placements rows default_dimensions default_per_row) ->
      0 <= i < 9 -> 0 <= j < 3 ->
      getpixel out (p_x p + i) (p_y p + j) =
      getpixel (convert RGBA (p_tile p)) i j.
Proof.
  intros Hsizes Hn Hfuel. unfold default_dimensions, default_per_row in *.
  assert (Hceil : ceil_div (len tiles) 4 <= 31).
  { unfold ceil_div. pose proof (len_nonneg tiles) as Hn0.
    pose proof (Z.div_mod (len tiles + 4 - 1) 4 ltac:(lia)) as Hdm.
    pose proof (Z.mod_pos_bound (len tiles + 4 - 1) 4 ltac:(lia)) as Hb.
    lia. }
  destruct (arrange_pixels fuel tiles 9 3 4 default_outline
              ltac:(lia) ltac:(lia) ltac:(lia) Hsizes Hfuel
              ltac:(unfold MAX_XSIZE; lia) ltac:(unfold INT_MAX; lia))
    as (rows & grid & Hrows & Hgrid & Hsz & Htiles & Hpix).
  pose proof (arrangeRibbons_RGBA _ _ _ _ _ _ _ Hgrid) as Hmode.
  destruct (rows_partition 4 fuel tiles rows ltac:(lia) Hrows)
    as (_ & Hlen & _).
  assert (Hrowsn : len rows <= 31).
  { rewrite Hlen. unfold ceil_div. pose proof (len_nonneg tiles) as Hn0.
    pose proof (Z.div_mod (len tiles + 4 - 1) 4 ltac:(lia)) as Hdm.
    pose proof (Z.mod_pos_bound (len tiles + 4 - 1) 4 ltac:(lia)) as Hb.
    lia. }
  set (blank := mkImage RGBA (128, 128) (fun _ _ => (0, 0, 0, 0))).
  set (w1 := mkWorld (heap w ++ [blank]) (stdout w)).
  set (w2 := mkWorld (heap w1 ++ [grid]) (stdout w1)).
  assert (Ht : heap w2 !! length (heap w) = Some blank).
  { apply lookup_snoc_old. apply lookup_snoc_new. }
  assert (Hg : heap w2 !! length (heap w1) = Some grid) by apply lookup_snoc_new.
  assert (Hne : length (heap w) <> length (heap w1)).
  { unfold w1. cbn [heap]. rewrite length_app. cbn. lia. }
  assert (Hint : int_box (target_box (0, 0) true grid) = true).
  { unfold target_box. cbn [fst snd]. apply int_box_spec.
    pose proof (size_range grid) as [[G1 G2] [G3 G4]].
    unfold INT_MIN, INT_MAX in *. repeat split; lia. }
  destruct (place_on_RGBA w2 (length (heap w)) (length (heap w1)) blank grid
              (0, 0) true Ht Hg eq_refl Hne Hint)
    as (w' & out & Hrun & Hout & _ & _ & _ & Hshirt).
  exists rows, grid, w', out.
  split; [exact Hrows|]. split; [exact Hgrid|].
  split.
  { rewrite (bind_run _ _ _ _ _ (newTShirt_run w)).
    fold blank. fold w1.
    rewrite (bind_run (alloc grid) _ w1 (length (heap w1)) w2 eq_refl).
    exact Hrun. }
  split; [exact Hout|]. split; [exact Htiles|].
  intros p i j Hp Hi Hj.
  assert (Hf : in_footprint (9, 3) p (p_x p + i) (p_y p + j) = true).
  { unfold in_footprint. cbn [fst snd]. zbool; try reflexivity; lia. }
  destruct (placement_on_canvas 9 3 4 fuel tiles rows
              ltac:(lia) ltac:(lia) ltac:(lia) Hrows
              p (p_x p + i) (p_y p + j) Hp) as [Hx Hy].
  { rewrite in_border_split by lia. now rewrite Hf. }
  cbn [canvas_size fst snd] in Hx, Hy.
  assert (Hing : in_image grid (p_x p + i) (p_y p + j) = true).
  { unfold in_image, width, height. rewrite Hsz. cbn [canvas_size fst snd].
    zbool; try reflexivity; lia. }
  assert (Hinb : in_image blank (p_x p + i) (p_y p + j) = true).
  { unfold in_image. change (width blank) with 128.
    change (height blank) with 128. zbool; try reflexivity; lia. }
  destruct (Hshirt _ _ Hinb) as [Hi' _]. rewrite Hi'.
  - rewrite (convert_same RGBA grid Hmode). cbn [fst snd]. rewrite !Z.sub_0_r.
    destruct (Hpix _ _ Hing) as (Htile & _ & _).
    rewrite (Htile p Hp Hf). f_equal; lia.
  - unfold in_box, target_box, width, height. rewrite Hsz.
    cbn [canvas_size fst snd]. lia.
Qed.

Lemma default_shirt_shows_every_ribbon_witness :
  exists rows grid w' out,
    split_rows 7 Samples.six_ribbons default_per_row [] = Some rows /\
    arrangeRibbons 7 Samples.six_ribbons default_dimensions default_per_row
      default_outline = Some (Ok grid) /\
    Store.mbind newTShirt
      (fun tShirt =>
         Store.mbind (alloc grid)
           (fun ribbons => placeRibbonGrid tShirt ribbons (0, 0) true))
      (mkWorld [] [])
      = (Ok (length (heap (mkWorld [] []))), w') /\
    heap w' !! length (heap (mkWorld [] [])) = Some out /\
    map p_tile (placements rows default_dimensions default_per_row)
      = Samples.six_ribbons /\
    forall p i j,
      In p (placements rows default_dimensions default_per_row) ->
      0 <= i < 9 -> 0 <= j < 3 ->
      getpixel out (p_x p + i) (p_y p + j) =
      getpixel (convert RGBA (p_tile p)) i j.
Proof.
  apply (default_shirt_shows_every_ribbon 7 Samples.six_ribbons (mkWorld [] [])).
  - repeat constructor.
  - unfold len, Samples.six_ribbons. cbn [length]. lia.
  - cbn. lia.
Defined.

(** ** [makeNametape]: when it returns, and where the text goes *)

Section NametapeOutcome.

Variables (w : World) (template : loc) (im : Image).
Hypothesis Htemplate : heap w !! template = Some im.
Variables (text : string) (font : ImageFont) (color : Pixel).

(** Text of several lines on a template the drawing context accepts. *)
Lemma makeNametape_multiline_any :
  mode im = RGB \/ mode im = RGBA -> multiline text = true ->
  exists e, fst (makeNametape template text font color w) = Raise e.
Proof.
  intros [Hmode | Hmode] Hline.
  - unfold makeNametape.
    rewrite (bind_run _ _ _ _ _ (get_run _ _ _ Htemplate)).
    rewrite Hmode. cbn [mode_eqb negb].
    set (w1 := mkWorld (heap w ++ [convert RGBA im]) (stdout w ++ [warn_template_mode])).
    assert (H1 : heap w1 !! template = Some im) by now apply lookup_snoc_old.
    rewrite (bind_run _ _ _ tt w1).
    2:{ unfold Store.mbind, print, Obj.convert, Store.mbind, get, alloc, Store.ret.
        cbn [heap stdout]. now rewrite Htemplate. }
    rewrite (bind_run _ _ _ _ _ (Draw_run template (Some RGBA) w1 im true H1
                                   ltac:(now rewrite Hmode))).
    unfold Obj.textlength. rewrite Hline. cbn. eauto.
  - rewrite (makeNametape_multiline w template im Htemplate text font color
               Hmode Hline). eauto.
Qed.

Lemma makeNametape_returns measured :
  (mode im = RGB \/ mode im = RGBA) -> multiline text = false ->
  getlength font text = Ok measured ->
  exists w' out,
    makeNametape template text font color w = (Ok template, w') /\
    heap w' !! template = Some out /\
    mode out = mode im /\ size out = size im.
Proof.
  pose proof (lookup_lt_Some _ _ _ Htemplate) as Hlt.
  intros [Hmode | Hmode] Hline Hfont.
  - rewrite (makeNametape_RGB w template im Htemplate text font color measured
               Hmode Hline Hfont).
    eexists _, _. split; [reflexivity|]. cbn [heap]. split.
    + apply list_lookup_insert_eq. rewrite length_app. cbn. lia.
    + split; reflexivity.
  - rewrite (makeNametape_RGBA w template im Htemplate text font color measured
               Hmode Hline Hfont).
    eexists _, _. split; [reflexivity|]. cbn [heap]. split.
    + now apply list_lookup_insert_eq.
    + split; reflexivity.
Qed.

(** The two outcomes of a call. *)
Lemma makeNametape_outcome :
  (fst (makeNametape template text font color w) = Ok template <->
   (mode im = RGB \/ mode im = RGBA) /\ multiline text = false /\
   exists measured, getlength font text = Ok measured) /\
  (fst (makeNametape template text font color w) = Ok template \/
   exists e, fst (makeNametape template text font color w) = Raise e).
Proof.
  assert (Hraise : forall e,
    fst (makeNametape template text font color w) = Raise e ->
    ~ ((mode im = RGB \/ mode im = RGBA) /\ multiline text = false /\
       exists measured, getlength font text = Ok measured) ->
    (fst (makeNametape template text font color w) = Ok template <->
     (mode im = RGB \/ mode im = RGBA) /\ multiline text = false /\
     exists measured, getlength font text = Ok measured) /\
    (fst (makeNametape template text font color w) = Ok template \/
     exists e, fst (makeNametape template text font color w) = Raise e)).
  { intros e E Hnot. rewrite E. split; [|right; eauto].
    split; [discriminate | intros H; contradiction]. }
  assert (Hgrey : mode im = L \/ mode im = LA ->
    ~ ((mode im = RGB \/ mode im = RGBA) /\ multiline text = false /\
       exists measured, getlength font text = Ok measured)).
  { intros [E | E] [[E' | E'] _]; rewrite E in E'; discriminate. }
  assert (Hmodes : (mode im = L \/ mode im = LA) \/
                   (mode im = RGB \/ mode im = RGBA))
    by (destruct (mode im); auto).
  destruct Hmodes as [Hm | Hm].
  { apply (Hraise _ (makeNametape_mode_mismatch w template im Htemplate text
                       font color Hm)), Hgrey, Hm. }
  destruct (multiline text) eqn:Hline.
  { destruct (makeNametape_multiline_any Hm Hline) as [e E].
    apply (Hraise e E). intros (_ & ? & _). discriminate. }
  destruct (getlength font text) as [measured|e] eqn:Hfont.
  - destruct (makeNametape_returns measured Hm Hline Hfont)
      as (w' & out & E & _).
    rewrite E. cbn [fst]. split; [|now left].
    split; [intros _|reflexivity]. eauto.
  - apply (Hraise e).
    + apply (makeNametape_font_raises w template im Htemplate text font color e);
        [tauto | exact Hline | exact Hfont].
    + intros (_ & _ & [q Hq]). discriminate.
Qed.

End NametapeOutcome.

(** X12: [makeNametape] returns exactly when the template is RGB or RGBA,
    the text has no newline and the font measures it (its [getlength]
    returns); in every other case it raises (the drawing context refuses
    the template, the text has several lines, or the font raises, as a
    bitmap font does on a character outside Latin-1). *)
Theorem makeNametape_returns_iff (w : World) (template : loc) (im : Image)
    (text : string) (font : ImageFont) (color : Pixel) :
  heap w !! template = Some im ->
  (fst (makeNametape template text font color w) = Ok template <->
   (mode im = RGB \/ mode im = RGBA) /\ multiline text = false /\
   exists measured, getlength font text = Ok measured) /\
  (fst (makeNametape template text font color w) = Ok template \/
   exists e, fst (makeNametape template text font color w) = Raise e).
Proof.
  intros Hl. split.
  - apply (makeNametape_outcome w template im Hl text font color).
  - apply (makeNametape_outcome w template im Hl text font color).
Qed.

Lemma makeNametape_returns_iff_witness :
  (fst (makeNametape 0%nat Nametapes.omega Nametapes.block_font
          Nametapes.white (Nametapes.world RGBA)) = Ok 0%nat <->
   (mode (Nametapes.template RGBA) = RGB \/ mode (Nametapes.template RGBA) = RGBA)
   /\ multiline Nametapes.omega = false /\
   exists measured, getlength Nametapes.block_font Nametapes.omega = Ok measured) /\
  (fst (makeNametape 0%nat Nametapes.omega Nametapes.block_font
          Nametapes.white (Nametapes.world RGBA)) = Ok 0%nat \/
   exists e, fst (makeNametape 0%nat Nametapes.omega Nametapes.block_font
                    Nametapes.white (Nametapes.world RGBA)) = Raise e).
Proof.
  apply (makeNametape_returns_iff (Nametapes.world RGBA) 0%nat
           (Nametapes.template RGBA)).
  reflexivity.
Defined.

(** X13: whenever [makeNametape] returns, what it returns is the template
    object it was given, in the mode and of the size it had: the function
    never hands back an image of another mode, whatever its warning
    says. *)
Theorem makeNametape_keeps_mode (w w' : World) (template result : loc)
    (im : Image) (text : string) (font : ImageFont) (color : Pixel) :
  heap w !! template = Some im ->
  makeNametape template text font color w = (Ok result, w') ->
  result = template /\
  exists out,
    heap w' !! template = Some out /\
    mode out = mode im /\ size out = size im.
Proof.
  intros Hl Hrun.
  destruct (makeNametape_outcome w template im Hl text font color)
    as [Hiff Hcases].
  assert (Hok : fst (makeNametape template text font color w) = Ok template).
  { destruct Hcases as [H | [e H]]; [exact H|].
    rewrite Hrun in H. discriminate. }
  apply Hiff in Hok as (Hmode & Hline & measured & Hfont).
  destruct (makeNametape_returns w template im Hl text font color measured
              Hmode Hline Hfont)
    as (w'' & out & E & Hout & Hm & Hs).
  rewrite E in Hrun. injection Hrun as <- <-. eauto.
Qed.

Lemma makeNametape_keeps_mode_witness :
  0%nat = 0%nat /\
  exists out,
    heap (snd (makeNametape 0%nat Nametapes.long_name Nametapes.block_font
                 Nametapes.white (Nametapes.world RGB))) !! 0%nat = Some out /\
    mode out = mode (Nametapes.template RGB) /\
    size out = size (Nametapes.template RGB).
Proof.
  apply (makeNametape_keeps_mode (Nametapes.world RGB)
           (snd (makeNametape 0%nat Nametapes.long_name Nametapes.block_font
                   Nametapes.white (Nametapes.world RGB)))
           0%nat 0%nat (Nametapes.template RGB)
           Nametapes.long_name Nametapes.block_font Nametapes.white).
  - reflexivity.
  - reflexivity.
Defined.

(** X14: a text that the font measures ([getlength] returns) and that is
    not wider than an RGBA template is drawn without warning and centred:
    its span [textWidth] from the origin of lines 125-128 lies within the
    template, and the margins left and right of it differ by at most one
    pixel. *)
Theorem makeNametape_centres (w : World) (template : loc) (im : Image)
    (text : string) (font : ImageFont) (color : Pixel) (measured : Q) :
  heap w !! template = Some im ->
  mode im = RGBA ->
  multiline text = false ->
  getlength font text = Ok measured ->
  0 <= int_of_float measured <= width im ->
  exists w' ox,
    makeNametape template text font color w = (Ok template, w') /\
    heap w' = <[template := draw_text false im (ox, 1) text color font]> (heap w) /\
    stdout w' = stdout w /\
    0 <= ox /\
    ox + int_of_float measured <= width im /\
    -1 <= (width im - (ox + int_of_float measured)) - ox <= 1.
Proof.
  intros Hl Hmode Hline Hfont Hfit.
  rewrite (makeNametape_RGBA w template im Hl text font color measured
             Hmode Hline Hfont).
  eexists _, _. split; [reflexivity|]. cbn [heap stdout].
  split; [reflexivity|].
  unfold width in *. set (W := fst (size im)) in *.
  set (T := int_of_float measured) in *.
  destruct (Z.ltb_spec W T); [lia|].
  split; [apply app_nil_r|].
  pose proof (Z.div_mod W 2 ltac:(lia)) as HW.
  pose proof (Z.mod_pos_bound W 2 ltac:(lia)) as HWb.
  pose proof (Z.div_mod T 2 ltac:(lia)) as HT.
  pose proof (Z.mod_pos_bound T 2 ltac:(lia)) as HTb.
  lia.
Qed.

Lemma makeNametape_centres_witness :
  exists w' ox,
    makeNametape 0%nat "SMITH" Nametapes.block_font Nametapes.white
      (Nametapes.world RGBA) = (Ok 0%nat, w') /\
    heap w' = <[0%nat := draw_text false (Nametapes.template RGBA) (ox, 1)
                           "SMITH" Nametapes.white Nametapes.block_font]>
                (heap (Nametapes.world RGBA)) /\
    stdout w' = stdout (Nametapes.world RGBA) /\
    0 <= ox /\
    ox + int_of_float (inject_Z 30) <= width (Nametapes.template RGBA) /\
    -1 <= (width (Nametapes.template RGBA)
           - (ox + int_of_float (inject_Z 30))) - ox <= 1.
Proof.
  apply (makeNametape_centres (Nametapes.world RGBA) 0%nat (Nametapes.template RGBA)).
  - reflexivity.
  - reflexivity.
  - reflexivity.
  - reflexivity.
  - change (0 <= 30 <= 50). lia.
Defined.
